(** * 99tech challenge: sum-to-n (problem 4) and the resource CRUD service (problem 5)

    A shallow embedding of the TypeScript sources and the properties the
    specification states about them.

    Conventions of the embedding.
    - A JavaScript [number] that holds an integer is a [Z].  Numbers are
      exact up to [Number.MAX_SAFE_INTEGER] only, so a property that
      computes with numbers states that range where it depends on it.
    - A call takes room on the call stack: a function that calls itself
      carries the number of calls the stack has room for, and throws the
      engine's [RangeError] when none is left.
    - A JavaScript string is a [string]; a character is one code unit, and
      the embedding covers the code units below 256.  The store takes no
      text that holds the code unit 0, its [id] column holds 32-bit integers
      and its [LIMIT] and [OFFSET] are integers written from a number: a
      property about values sent to the store states these ranges.
    - An optional field ([field?: T], possibly [undefined]) is an [option].
    - A [throw] is the [Throw] outcome of the monad [M]; [await] is
      sequencing in [M], the store being threaded through explicitly.
    - Of the store, the embedding has what the sources state: the columns
      and constraints of the schema and the statements of [ResourceModel].
      Output on the console is left out. *)

From Stdlib Require Import ZArith List Bool Ascii String Lia.
From Stdlib Require Import Sorting.Sorted Sorting.Permutation.
From Stdlib Require Import Numbers.DecimalString.
From Stdlib Require DecimalPos DecimalZ.
From Equations Require Import Equations.
Import ListNotations.

Local Open Scope Z_scope.

(* ===================================================================== *)
(** * utils/errors.ts *)
(* ===================================================================== *)

Inductive ErrorClass :=
| AppErrorClass
| NotFoundErrorClass
| ValidationErrorClass
| ConflictErrorClass
| UnauthorizedErrorClass.

(** A thrown value: an [AppError] (of some class of the hierarchy) with
    its [message], [statusCode] and [isOperational], or any other
    [Error], of which only the [message] is read. *)
Inductive JsError :=
| AppError (cls : ErrorClass) (message : string) (statusCode : Z)
           (isOperational : bool)
| Error (message : string).

Definition NotFoundError (message : string) : JsError :=
  AppError NotFoundErrorClass message 404 true.
Definition ValidationError (message : string) : JsError :=
  AppError ValidationErrorClass message 400 true.
Definition ConflictError (message : string) : JsError :=
  AppError ConflictErrorClass message 409 true.
Definition UnauthorizedError (message : string) : JsError :=
  AppError UnauthorizedErrorClass message 401 true.

Definition error_message (e : JsError) : string :=
  match e with
  | AppError _ m _ _ => m
  | Error m => m
  end.

(** [err instanceof AppError] *)
Definition instanceof_AppError (e : JsError) : bool :=
  match e with
  | AppError _ _ _ _ => true
  | Error _ => false
  end.

(** The [RangeError] of the engine when the call stack has no room for
    one more call. *)
Definition stack_overflow : JsError :=
  Error "Maximum call stack size exceeded"%string.

(** The result of running code that may throw. *)
Inductive Outcome (A : Type) :=
| Return (a : A)
| Throw (e : JsError).
Arguments Return {A} a.
Arguments Throw {A} e.

(* ===================================================================== *)
(** * Problem 4: three ways to sum to n *)
(* ===================================================================== *)

Module SumToN.

(** The [for (let i = 1; i <= n; i++) sum += i] loop of [sum_to_n_a],
    as a recursive function of the loop variables. *)
Equations? loop_a (n i sum : Z) : Z by wf (Z.to_nat (n + 1 - i)) lt :=
  loop_a n i sum with Z_le_gt_dec i n => {
    | left _ := loop_a n (i + 1) (sum + i);
    | right _ := sum }.
Proof. lia. Qed.

Definition sum_to_n_a (n : Z) : Z :=
  if n <=? 0 then 0 else loop_a n 1 0.

(** [stack] is the number of calls that the call stack has room for when
    [sum_to_n_b] is called: every call takes one, the call inside
    [n + sum_to_n_b(n - 1)] being made while the caller is still there. *)
Fixpoint sum_to_n_b (stack : nat) (n : Z) : Outcome Z :=
  match stack with
  | O => Throw stack_overflow
  | S stack' =>
      if n <=? 0 then Return 0
      else if n =? 1 then Return 1
      else
        match sum_to_n_b stack' (n - 1) with
        | Return rest => Return (n + rest)
        | Throw e => Throw e
        end
  end.

Definition sum_to_n_c (n : Z) : Z :=
  if n <=? 0 then 0 else (n * (n + 1)) / 2.

End SumToN.

(* ===================================================================== *)
(** * Problem 5: JavaScript values used by the service *)
(* ===================================================================== *)

Module Js.

Local Open Scope string_scope.

(** The double-quote character, for messages that contain it. *)
Definition dquote : string := String (ascii_of_nat 34) EmptyString.

(** Truthiness of an optional string: [undefined] and the empty string are
    falsy. *)
Definition truthy (o : option string) : bool :=
  match o with
  | Some s => negb (s =? "")
  | None => false
  end.

(** [a || b] where [b] is a string. *)
Definition or_str (a : option string) (b : string) : string :=
  match a with
  | Some s => if s =? "" then b else s
  | None => b
  end.

(** [a || b] where both sides may be [undefined]. *)
Definition or_opt (a b : option string) : option string :=
  if truthy a then a else b.

(** [a || b] where [a] is an optional number: [undefined] and [0] are
    falsy. *)
Definition or_num (a : option Z) (b : Z) : Z :=
  match a with
  | Some n => if (n =? 0)%Z then b else n
  | None => b
  end.

(** White space and line terminators stripped by [String.prototype.trim],
    among the code units below 256. *)
Definition is_white_space (c : ascii) : bool :=
  let n := nat_of_ascii c in
  ((9 <=? n) && (n <=? 13) || (n =? 32) || (n =? 160))%nat.

Fixpoint trimStart (s : string) : string :=
  match s with
  | EmptyString => EmptyString
  | String c s' => if is_white_space c then trimStart s' else s
  end.

Fixpoint trimEnd (s : string) : string :=
  match s with
  | EmptyString => EmptyString
  | String c s' =>
      match trimEnd s' with
      | EmptyString => if is_white_space c then EmptyString else String c EmptyString
      | t => String c t
      end
  end.

Definition trim (s : string) : string := trimEnd (trimStart s).

(** [s.length] *)
Definition len (s : string) : Z := Z.of_nat (String.length s).

(** [s.includes(x)] *)
Fixpoint includes (s x : string) : bool :=
  prefix x s ||
  match s with
  | EmptyString => false
  | String _ s' => includes s' x
  end.

(** [arr.includes(x)] on an array of strings. *)
Definition arr_includes (arr : list string) (x : string) : bool :=
  existsb (String.eqb x) arr.

(** The text of an integer inside a template literal: its decimal digits
    (the numbers written so are below [10^21] in absolute value). *)
Definition num_to_string (n : Z) : string :=
  NilEmpty.string_of_int (Z.to_int n).

(** [Math.ceil(a / b)] for integers [a] and [b]. *)
Definition ceil_div (a b : Z) : Z := - ((- a) / b).

(** [Number.MAX_SAFE_INTEGER]: up to it, in absolute value, every integer
    is a number and sums, differences and products are exact. *)
Definition MAX_SAFE_INTEGER : Z := 2 ^ 53 - 1.

End Js.

(* ===================================================================== *)
(** * The relational store behind [pool.query] *)
(* ===================================================================== *)

(** The [resources] table of [config/database.ts] and the statements that
    [ResourceModel] sends to it.  A timestamp is a [Z]; [clock] is the value
    [CURRENT_TIMESTAMP] yields; [serial] is the next value of the [SERIAL]
    sequence of [id]; [log] records every statement that reached the
    store, in order.

    The statements are modelled for parameters that the store takes: an
    [id] within the 32-bit [INTEGER] type, text without the code unit 0, a
    [LIMIT] and an [OFFSET] that are exact numbers.  Outside these ranges
    the store refuses the statement with an error of its own, which the
    model does not have: the properties state the ranges ([Spec.int4],
    [Spec.storable], [Spec.safe_page]) wherever a parameter could leave
    them.  Rows with equal [createdAt] are listed in the order of the
    table, one of the orders the store may choose. *)
Module Store.

Local Open Scope string_scope.

Record Row := mkRow {
  row_id : Z;
  row_name : string;
  row_description : string;
  row_status : string;
  row_createdAt : Z;
  row_updatedAt : Z
}.

Inductive Stmt :=
| StmtInsert
| StmtSelectById
| StmtCount
| StmtSelectPage
| StmtUpdate
| StmtDelete.

Record Db := mkDb {
  table : list Row;
  serial : Z;
  clock : Z;
  log : list Stmt
}.

(** Code that awaits the store: a state and error monad over [Db]. *)
Definition M (A : Type) : Type := Db -> Outcome A * Db.

Definition ret {A} (a : A) : M A := fun db => (Return a, db).

Definition throw {A} (e : JsError) : M A := fun db => (Throw e, db).

Definition bind {A B} (c : M A) (k : A -> M B) : M B :=
  fun db =>
    match c db with
    | (Return a, db') => k a db'
    | (Throw e, db') => (Throw e, db')
    end.

(** A synchronous computation that may throw, run inside [M]. *)
Definition lift {A} (o : Outcome A) : M A := fun db => (o, db).

Definition sent (s : Stmt) : M unit :=
  fun db => (Return tt, mkDb (table db) (serial db) (clock db) (log db ++ [s])).

Definition get : M Db := fun db => (Return db, db).

Definition set_table (t : list Row) : M unit :=
  fun db => (Return tt, mkDb t (serial db) (clock db) (log db)).

Definition next_serial : M Z :=
  fun db => (Return (serial db),
             mkDb (table db) (serial db + 1) (clock db) (log db)).

End Store.

Declare Scope store_scope.
Delimit Scope store_scope with store.
Notation "x <- c ;; k" := (Store.bind c (fun x => k))
  (at level 61, c at next level, right associativity) : store_scope.
Notation "c ;;; k" := (Store.bind c (fun _ => k))
  (at level 61, right associativity) : store_scope.

Module Sql.

Import Store.
Local Open Scope string_scope.
Local Open Scope store_scope.

(** ** Column types and constraints of the schema *)

Fixpoint all_spaces (s : string) : bool :=
  match s with
  | EmptyString => true
  | String c s' => (c =? " ")%char && all_spaces s'
  end.

(** Assignment to a [VARCHAR(n)] column: a longer value is an error,
    unless the excess is all spaces, which are cut off. *)
Definition varchar (n : nat) (s : string) : option string :=
  if (String.length s <=? n)%nat then Some s
  else if all_spaces (substring n (String.length s - n) s)
       then Some (substring 0 n s)
       else None.

(** [CHECK(status IN ('active', 'inactive'))] *)
Definition status_check (s : string) : bool :=
  (s =? "active") || (s =? "inactive").

Definition too_long (n : string) : JsError :=
  Error ("value too long for type character varying(" ++ n ++ ")").

Definition check_violation : JsError :=
  Error "new row for relation resources violates check constraint resources_status_check".

Definition not_null_violation (col : string) : JsError :=
  Error ("null value in column " ++ col ++ " violates not-null constraint").

Definition store_name (v : string) : Outcome string :=
  match varchar 255 v with
  | Some v' => Return v'
  | None => Throw (too_long "255")
  end.

Definition store_status (v : string) : Outcome string :=
  match varchar 20 v with
  | Some v' => if status_check v' then Return v' else Throw check_violation
  | None => Throw (too_long "20")
  end.

(** ** Patterns of [LIKE] and [ILIKE] *)

(** [%] matches any run of characters, [_] any one character, and a
    backslash takes the next pattern character literally.  (A pattern that
    ends in a lone backslash is rejected by the engine; a pattern that ends
    in [%], as every pattern built by [findAll] does, never reaches that
    case.) *)
Fixpoint like (p s : string) {struct p} : bool :=
  match p with
  | EmptyString =>
      match s with EmptyString => true | String _ _ => false end
  | String c p' =>
      if (c =? "%")%char then
        (fix any (t : string) : bool :=
           like p' t ||
           match t with
           | EmptyString => false
           | String _ t' => any t'
           end) s
      else if (c =? "_")%char then
        match s with
        | EmptyString => false
        | String _ s' => like p' s'
        end
      else if (c =? "\")%char then
        match p' with
        | EmptyString => false
        | String e p'' =>
            match s with
            | EmptyString => false
            | String x s' => (x =? e)%char && like p'' s'
            end
        end
      else
        match s with
        | EmptyString => false
        | String x s' => (x =? c)%char && like p' s'
        end
  end.

(** Case folding of one character: the letters A-Z and the upper-case
    letters of Latin-1. *)
Definition lower_char (c : ascii) : ascii :=
  let n := nat_of_ascii c in
  if ((65 <=? n) && (n <=? 90)
      || (192 <=? n) && (n <=? 222) && negb (n =? 215))%nat
  then ascii_of_nat (n + 32)
  else c.

Fixpoint lower (s : string) : string :=
  match s with
  | EmptyString => EmptyString
  | String c s' => String (lower_char c) (lower s')
  end.

Definition ilike (p s : string) : bool := like (lower p) (lower s).

(** ** The [WHERE] clause built by [findAll] *)

Inductive Cond :=
| StatusEq (v : string)
| NameOrDescriptionILike (p1 p2 : string).

Definition eval_cond (c : Cond) (r : Row) : bool :=
  match c with
  | StatusEq v => row_status r =? v
  | NameOrDescriptionILike p1 p2 =>
      ilike p1 (row_name r) || ilike p2 (row_description r)
  end.

(** [WHERE 1=1 AND c1 AND c2 ...] *)
Definition eval_where (w : list Cond) (r : Row) : bool :=
  forallb (fun c => eval_cond c r) w.

(** ** [ORDER BY "createdAt" DESC] *)

(** Rows with equal [createdAt] keep their order in the table. *)
Fixpoint insert_desc (r : Row) (l : list Row) : list Row :=
  match l with
  | [] => [r]
  | x :: l' =>
      if (row_createdAt x <=? row_createdAt r)%Z then r :: l
      else x :: insert_desc r l'
  end.

Definition order_by_createdAt_desc (l : list Row) : list Row :=
  fold_right insert_desc [] l.

(** ** The [SET] list built by [update] *)

Inductive Column := ColName | ColDescription | ColStatus.

(** One assignment of the [SET] list: the value is checked against the
    column it goes to. *)
Definition assign (r : Row) (a : Column * string) : Outcome Row :=
  match a with
  | (ColName, v) =>
      match store_name v with
      | Return v' =>
          Return (mkRow (row_id r) v' (row_description r) (row_status r)
                        (row_createdAt r) (row_updatedAt r))
      | Throw e => Throw e
      end
  | (ColDescription, v) =>
      Return (mkRow (row_id r) (row_name r) v (row_status r)
                    (row_createdAt r) (row_updatedAt r))
  | (ColStatus, v) =>
      match store_status v with
      | Return v' =>
          Return (mkRow (row_id r) (row_name r) (row_description r) v'
                        (row_createdAt r) (row_updatedAt r))
      | Throw e => Throw e
      end
  end.

Fixpoint assign_all (r : Row) (sets : list (Column * string)) : Outcome Row :=
  match sets with
  | [] => Return r
  | a :: sets' =>
      match assign r a with
      | Return r' => assign_all r' sets'
      | Throw e => Throw e
      end
  end.

Definition touch (now : Z) (r : Row) : Row :=
  mkRow (row_id r) (row_name r) (row_description r) (row_status r)
        (row_createdAt r) now.

Definition has_id (id : Z) (r : Row) : bool := (row_id r =? id)%Z.

(** The new table, or the first error, of
    [UPDATE resources SET ..., "updatedAt" = CURRENT_TIMESTAMP WHERE id = $n]. *)
Fixpoint update_rows (sets : list (Column * string)) (id now : Z)
         (t : list Row) : Outcome (list Row) :=
  match t with
  | [] => Return []
  | r :: t' =>
      if has_id id r then
        match assign_all r sets with
        | Return r' =>
            match update_rows sets id now t' with
            | Return t'' => Return (touch now r' :: t'')
            | Throw e => Throw e
            end
        | Throw e => Throw e
        end
      else
        match update_rows sets id now t' with
        | Return t'' => Return (r :: t'')
        | Throw e => Throw e
        end
  end.

(** ** The statements *)

(** [INSERT INTO resources (name, description, status) VALUES ($1, $2, $3)
    RETURNING *] *)
Definition insert (name description : option string) (status : string)
  : M (list Row) :=
  sent StmtInsert ;;;
  match name, description with
  | None, _ => throw (not_null_violation "name")
  | Some _, None => throw (not_null_violation "description")
  | Some n, Some d =>
      n' <- lift (store_name n) ;;
      s' <- lift (store_status status) ;;
      id <- next_serial ;;
      db <- get ;;
      let r := mkRow id n' d s' (clock db) (clock db) in
      set_table (table db ++ [r]) ;;;
      ret [r]
  end.

(** [SELECT * FROM resources WHERE id = $1] *)
Definition select_by_id (id : Z) : M (list Row) :=
  sent StmtSelectById ;;;
  db <- get ;;
  ret (filter (has_id id) (table db)).

(** [SELECT COUNT( * ) as total FROM resources WHERE ...], the count
    already read back as a number. *)
Definition count (w : list Cond) : M Z :=
  sent StmtCount ;;;
  db <- get ;;
  ret (Z.of_nat (List.length (filter (eval_where w) (table db)))).

(** [SELECT * FROM resources WHERE ... ORDER BY "createdAt" DESC
    LIMIT $n OFFSET $m] *)
Definition select_page (w : list Cond) (limit offset : Z) : M (list Row) :=
  sent StmtSelectPage ;;;
  db <- get ;;
  if (limit <? 0)%Z then throw (Error "LIMIT must not be negative")
  else if (offset <? 0)%Z then throw (Error "OFFSET must not be negative")
  else
    ret (firstn (Z.to_nat limit)
           (skipn (Z.to_nat offset)
              (order_by_createdAt_desc (filter (eval_where w) (table db))))).

(** [UPDATE resources SET ... WHERE id = $n RETURNING *] *)
Definition update (sets : list (Column * string)) (id : Z) : M (list Row) :=
  sent StmtUpdate ;;;
  db <- get ;;
  t' <- lift (update_rows sets id (clock db) (table db)) ;;
  set_table t' ;;;
  ret (filter (has_id id) t').

(** [DELETE FROM resources WHERE id = $1], giving [rowCount]. *)
Definition delete (id : Z) : M Z :=
  sent StmtDelete ;;;
  db <- get ;;
  set_table (filter (fun r => negb (has_id id r)) (table db)) ;;;
  ret (Z.of_nat (List.length (filter (has_id id) (table db)))).

End Sql.

(* ===================================================================== *)
(** * types/index.ts *)
(* ===================================================================== *)

Inductive Status := active | inactive.

Definition status_text (s : Status) : string :=
  match s with
  | active => "active"
  | inactive => "inactive"
  end.

Record Resource := mkResource {
  id : Z;
  name : string;
  description : string;
  status : string;
  createdAt : Z;
  updatedAt : Z
}.

(** The body of a create request as it reaches the service: the checks of
    [validateCreateData] are written for fields that may be missing and for
    a [status] outside the declared union. *)
Record CreateResourceDto := mkCreate {
  c_name : option string;
  c_description : option string;
  c_status : option string
}.

Record UpdateResourceDto := mkUpdate {
  u_name : option string;
  u_description : option string;
  u_status : option string
}.

Record ResourceFilters := mkFilters {
  f_status : option Status;
  f_search : option string;
  f_page : option Z;
  f_limit : option Z
}.

Record Pagination := mkPagination {
  page : Z;
  limit : Z;
  total : Z;
  totalPages : Z
}.

Record PaginatedResponse := mkPaginated {
  data : list Resource;
  pagination : Pagination
}.

(* ===================================================================== *)
(** * models/ResourceModel.ts *)
(* ===================================================================== *)

Module ResourceModel.

Import Store.
Local Open Scope string_scope.
Local Open Scope store_scope.

(** Timestamps stay numbers: the ISO text of a [Date] is not modelled. *)
Definition mapRowToResource (row : Row) : Resource :=
  mkResource (row_id row) (row_name row) (row_description row)
             (row_status row) (row_createdAt row) (row_updatedAt row).

(** [this.mapRowToResource(result.rows[0])]: reading a field of the
    missing first row throws a [TypeError]. *)
Definition first_row (rows : list Row) : M Resource :=
  match rows with
  | r :: _ => ret (mapRowToResource r)
  | [] => throw (Error "Cannot read properties of undefined (reading 'id')")
  end.

Definition create (data : CreateResourceDto) : M Resource :=
  let status := Js.or_str (c_status data) "active" in
  rows <- Sql.insert (c_name data) (c_description data) status ;;
  first_row rows.

Definition findById (id : Z) : M (option Resource) :=
  rows <- Sql.select_by_id id ;;
  match rows with
  | [] => ret None
  | r :: _ => ret (Some (mapRowToResource r))
  end.

(** The [WHERE] clause that [findAll] builds, one condition per filter
    that is present. *)
Definition build_where (filters : ResourceFilters) : list Sql.Cond :=
  let whereClause : list Sql.Cond := [] in
  let whereClause :=
    match f_status filters with
    | Some s => (whereClause ++ [Sql.StatusEq (status_text s)])%list
    | None => whereClause
    end in
  if Js.truthy (f_search filters) then
    let searchTerm := "%" ++ Js.or_str (f_search filters) "" ++ "%" in
    (whereClause ++ [Sql.NameOrDescriptionILike searchTerm searchTerm])%list
  else whereClause.

Definition findAll (filters : ResourceFilters) : M PaginatedResponse :=
  let page := Js.or_num (f_page filters) 1 in
  let limit := Js.or_num (f_limit filters) 10 in
  let offset := (page - 1) * limit in
  let whereClause := build_where filters in
  total <- Sql.count whereClause ;;
  rows <- Sql.select_page whereClause limit offset ;;
  let resources := map mapRowToResource rows in
  ret (mkPaginated resources
         (mkPagination page limit total (Js.ceil_div total limit))).

Definition push_if (col : Sql.Column) (v : option string)
           (updates : list (Sql.Column * string)) : list (Sql.Column * string) :=
  match v with
  | Some x => (updates ++ [(col, x)])%list
  | None => updates
  end.

Definition update (id : Z) (data : UpdateResourceDto) : M (option Resource) :=
  existing <- findById id ;;
  match existing with
  | None => ret None
  | Some existing =>
      let updates : list (Sql.Column * string) := [] in
      let updates := push_if Sql.ColName (u_name data) updates in
      let updates := push_if Sql.ColDescription (u_description data) updates in
      let updates := push_if Sql.ColStatus (u_status data) updates in
      if (List.length updates =? 0)%nat then ret (Some existing)
      else
        rows <- Sql.update updates id ;;
        match rows with
        | [] => ret None
        | r :: _ => ret (Some (mapRowToResource r))
        end
  end.

Definition delete (id : Z) : M bool :=
  rowCount <- Sql.delete id ;;
  ret (rowCount >? 0).

End ResourceModel.

(* ===================================================================== *)
(** * services/ResourceService.ts *)
(* ===================================================================== *)

Module ResourceService.

Import Store.
Local Open Scope string_scope.
Local Open Scope store_scope.

Definition status_message : string :=
  "Status must be either " ++ Js.dquote ++ "active" ++ Js.dquote
  ++ " or " ++ Js.dquote ++ "inactive" ++ Js.dquote.

(** [!v || v.trim().length === 0] *)
Definition blank (v : option string) : bool :=
  negb (Js.truthy v) || (Js.len (Js.trim (Js.or_str v "")) =? 0)%Z.

(** [v.length > n] for a field known to be a string. *)
Definition longer (v : option string) (n : Z) : bool :=
  match v with
  | Some s => (Js.len s >? n)%Z
  | None => false
  end.

Definition validateCreateData (data : CreateResourceDto) : Outcome unit :=
  if blank (c_name data) then
    Throw (ValidationError "Name is required")
  else if longer (c_name data) 255 then
    Throw (ValidationError "Name must be less than 255 characters")
  else if blank (c_description data) then
    Throw (ValidationError "Description is required")
  else if longer (c_description data) 1000 then
    Throw (ValidationError "Description must be less than 1000 characters")
  else if Js.truthy (c_status data)
          && negb (Js.arr_includes ["active"; "inactive"]
                     (Js.or_str (c_status data) "")) then
    Throw (ValidationError status_message)
  else Return tt.

Definition validateUpdateData (data : UpdateResourceDto) : Outcome unit :=
  match
    match u_name data with
    | Some n =>
        if (Js.len (Js.trim n) =? 0)%Z then
          Throw (ValidationError "Name cannot be empty")
        else if (Js.len n >? 255)%Z then
          Throw (ValidationError "Name must be less than 255 characters")
        else Return tt
    | None => Return tt
    end
  with
  | Throw e => Throw e
  | Return _ =>
      match
        match u_description data with
        | Some d =>
            if (Js.len (Js.trim d) =? 0)%Z then
              Throw (ValidationError "Description cannot be empty")
            else if (Js.len d >? 1000)%Z then
              Throw (ValidationError "Description must be less than 1000 characters")
            else Return tt
        | None => Return tt
        end
      with
      | Throw e => Throw e
      | Return _ =>
          match u_status data with
          | Some s =>
              if negb (Js.arr_includes ["active"; "inactive"] s) then
                Throw (ValidationError status_message)
              else Return tt
          | None => Return tt
          end
      end
  end.

Definition not_found_message (id : Z) : string :=
  "Resource with id " ++ Js.num_to_string id ++ " not found".

Definition create (data : CreateResourceDto) : M Resource :=
  lift (validateCreateData data) ;;;
  ResourceModel.create data.

Definition findById (id : Z) : M Resource :=
  resource <- ResourceModel.findById id ;;
  match resource with
  | None => throw (NotFoundError (not_found_message id))
  | Some r => ret r
  end.

Definition below (v : option Z) (n : Z) : bool :=
  match v with
  | Some x => (x <? n)%Z
  | None => false
  end.

Definition above (v : option Z) (n : Z) : bool :=
  match v with
  | Some x => (x >? n)%Z
  | None => false
  end.

Definition findAll (filters : ResourceFilters) : M PaginatedResponse :=
  if below (f_page filters) 1 then
    throw (ValidationError "Page must be greater than 0")
  else if below (f_limit filters) 1 || above (f_limit filters) 100 then
    throw (ValidationError "Limit must be between 1 and 100")
  else ResourceModel.findAll filters.

Definition update (id : Z) (data : UpdateResourceDto) : M Resource :=
  lift (validateUpdateData data) ;;;
  resource <- ResourceModel.update id data ;;
  match resource with
  | None => throw (NotFoundError (not_found_message id))
  | Some r => ret r
  end.

Definition delete (id : Z) : M unit :=
  deleted <- ResourceModel.delete id ;;
  if negb deleted then throw (NotFoundError (not_found_message id))
  else ret tt.

End ResourceService.

(* ===================================================================== *)
(** * middleware/auth.ts *)
(* ===================================================================== *)

Module Auth.

Local Open Scope string_scope.

(** The parts of a request that the gate reads: the [x-api-key] header and
    the [apiKey] query parameter. *)
Record Request := mkRequest {
  header_x_api_key : option string;
  query_apiKey : option string
}.

Definition required_message : string :=
  "API key is required. Please provide it in the X-API-Key header or apiKey query parameter.".

(** [API_KEY] is the value of [process.env.API_KEY]; [Return tt] stands for
    the call of [next()]. *)
Definition authenticateApiKey (API_KEY : option string) (req : Request)
  : Outcome unit :=
  let validApiKey := API_KEY in
  if negb (Js.truthy validApiKey) then Return tt
  else
    let apiKeyFromHeader := header_x_api_key req in
    let apiKeyFromQuery := query_apiKey req in
    let providedApiKey := Js.or_opt apiKeyFromHeader apiKeyFromQuery in
    if negb (Js.truthy providedApiKey) then
      Throw (UnauthorizedError required_message)
    else if negb (Js.or_str providedApiKey "" =? Js.or_str validApiKey "") then
      Throw (UnauthorizedError "Invalid API key.")
    else Return tt.

End Auth.

(* ===================================================================== *)
(** * middleware/errorHandler.ts *)
(* ===================================================================== *)

Module ErrorHandler.

Local Open Scope string_scope.

Record ErrorBody := mkErrorBody {
  message : string;
  statusCode : Z
}.

(** What [res.status(s).json({ success, error })] sends. *)
Record Response := mkResponse {
  res_status : Z;
  success : bool;
  error : ErrorBody
}.

(** [NODE_ENV] is the value of [process.env.NODE_ENV]. *)
Definition errorHandler (NODE_ENV : option string) (err : JsError) : Response :=
  match err with
  | AppError _ msg code _ =>
      mkResponse code false (mkErrorBody msg code)
  | Error msg =>
      mkResponse 500 false
        (mkErrorBody
           (match NODE_ENV with
            | Some env =>
                if env =? "production" then "Internal server error" else msg
            | None => msg
            end)
           500)
  end.

End ErrorHandler.

(* ===================================================================== *)
(** * Vocabulary of the properties *)
(* ===================================================================== *)

Module Spec.

Local Open Scope string_scope.

(** A header or query parameter that carries no key: missing or empty. *)
Definition no_key (v : option string) : Prop := v = None \/ v = Some "".

(** A string made of white space only. *)
Fixpoint all_white (s : string) : bool :=
  match s with
  | EmptyString => true
  | String c s' => Js.is_white_space c && all_white s'
  end.

(** [n] copies of [c]. *)
Fixpoint repeat_char (n : nat) (c : ascii) : string :=
  match n with
  | O => EmptyString
  | S n' => String c (repeat_char n' c)
  end.

(** ** The validation rules of create, in the order of the specification *)

(** A rule: the test that a create input violates it, and its message. *)
Definition Rule : Type := (CreateResourceDto -> bool) * string.

Definition name_presence : Rule :=
  (fun d => match c_name d with None => true | Some s => all_white s end,
   "Name is required").

Definition name_length : Rule :=
  (fun d => match c_name d with
            | None => false
            | Some s => (255 <? String.length s)%nat
            end,
   "Name must be less than 255 characters").

Definition description_presence : Rule :=
  (fun d => match c_description d with
            | None => true
            | Some s => all_white s
            end,
   "Description is required").

Definition description_length : Rule :=
  (fun d => match c_description d with
            | None => false
            | Some s => (1000 <? String.length s)%nat
            end,
   "Description must be less than 1000 characters").

(** The message of the status rule. *)
Definition status_rule_message : string :=
  "Status must be either " ++ Js.dquote ++ "active" ++ Js.dquote
  ++ " or " ++ Js.dquote ++ "inactive" ++ Js.dquote.

(** "status: if present, must be exactly active or inactive". *)
Definition status_enum : Rule :=
  (fun d => match c_status d with
            | None => false
            | Some s => negb (s =? "active") && negb (s =? "inactive")
            end,
   status_rule_message).

Definition create_rules : list Rule :=
  [name_presence; name_length; description_presence; description_length;
   status_enum].

(** The status rule for a status that is given: present and not the empty
    string. *)
Definition status_enum_given : Rule :=
  (fun d => match c_status d with
            | None => false
            | Some s =>
                negb (s =? "") && negb (s =? "active") && negb (s =? "inactive")
            end,
   status_rule_message).

(** The rules with the status rule for a status that is given. *)
Definition create_rules_given : list Rule :=
  [name_presence; name_length; description_presence; description_length;
   status_enum_given].

(** The message of the first rule of [rules] that [d] violates. *)
Fixpoint first_violated (rules : list Rule) (d : CreateResourceDto)
  : option string :=
  match rules with
  | [] => None
  | (violated, msg) :: rules' =>
      if violated d then Some msg else first_violated rules' d
  end.

(** "Validation fails on the first violated rule in the order name
    presence, name length, description presence, description length, status
    enum, each with its own message; a name of 256 characters is rejected
    with a message containing 255." *)
Definition first_violation_claim (d : CreateResourceDto) : Prop :=
  ResourceService.validateCreateData d
  = match first_violated create_rules d with
    | Some msg => Throw (ValidationError msg)
    | None => Return tt
    end
  /\ (forall s,
         c_name d = Some s -> String.length s = 256%nat ->
         exists msg,
           ResourceService.validateCreateData d = Throw (ValidationError msg)
           /\ Js.includes msg "255" = true).

(** ** Ranges of numbers and of text *)

(** An integer that is a number exactly. *)
Definition safe_integer (n : Z) : Prop :=
  - Js.MAX_SAFE_INTEGER <= n <= Js.MAX_SAFE_INTEGER.

(** The input of the sums is "assumed to produce result <
    Number.MAX_SAFE_INTEGER". *)
Definition result_is_safe (n : Z) : Prop :=
  1 <= n -> n * (n + 1) / 2 < Js.MAX_SAFE_INTEGER.

(** "For every integer n the three implementations agree, and each equals
    n * (n + 1) / 2 when n >= 1 and 0 when n <= 0", [sum_to_n_b] being called
    with room for [stack] calls. *)
Definition sums_agree_claim (stack : nat) (n : Z) : Prop :=
  (Return (SumToN.sum_to_n_a n) = SumToN.sum_to_n_b stack n
   /\ SumToN.sum_to_n_b stack n = Return (SumToN.sum_to_n_c n))
  /\ (1 <= n ->
      SumToN.sum_to_n_a n = n * (n + 1) / 2
      /\ SumToN.sum_to_n_b stack n = Return (n * (n + 1) / 2)
      /\ SumToN.sum_to_n_c n = n * (n + 1) / 2)
  /\ (n <= 0 ->
      SumToN.sum_to_n_a n = 0
      /\ SumToN.sum_to_n_b stack n = Return 0
      /\ SumToN.sum_to_n_c n = 0).

(** A value of the [INTEGER] type of the [id] column and of its sequence:
    a 32-bit signed integer. *)
Definition int4 (n : Z) : Prop := - 2 ^ 31 <= n <= 2 ^ 31 - 1.

(** Text without the code unit 0, which the store refuses. *)
Fixpoint no_nul (s : string) : bool :=
  match s with
  | EmptyString => true
  | String c s' => negb (c =? zero)%char && no_nul s'
  end.

(** A field that, when it is there, is text the store takes. *)
Definition storable (v : option string) : Prop :=
  forall s, v = Some s -> no_nul s = true.

(** ** Stores *)

(** [db] after the statements [s] were sent and left its contents as they
    were. *)
Definition sent_to (db : Store.Db) (s : list Store.Stmt) : Store.Db :=
  Store.mkDb (Store.table db) (Store.serial db) (Store.clock db)
             (Store.log db ++ s).

(** A store with one resource, created at time 1000, read at time 2000. *)
Definition example_store : Store.Db :=
  Store.mkDb
    [Store.mkRow 1 "Test Resource" "Test Description" "active" 1000 1000]
    2 2000 [].

(** ** Updates *)

(** An update body with no recognised field. *)
Definition no_fields : UpdateResourceDto := mkUpdate None None None.

(** An update body with at least one field. *)
Definition supplied (data : UpdateResourceDto) : Prop :=
  u_name data <> None \/ u_description data <> None \/ u_status data <> None.

Definition or_keep (v : option string) (old : string) : string :=
  match v with
  | Some x => x
  | None => old
  end.

(** [r] with the supplied fields of [data] and with [updatedAt] set to
    [now]; [id] and [createdAt] are kept. *)
Definition with_fields (data : UpdateResourceDto) (now : Z) (r : Store.Row)
  : Store.Row :=
  Store.mkRow (Store.row_id r)
              (or_keep (u_name data) (Store.row_name r))
              (or_keep (u_description data) (Store.row_description r))
              (or_keep (u_status data) (Store.row_status r))
              (Store.row_createdAt r)
              now.

(** The values of [data] fit the columns of the table: [name] within
    [VARCHAR(255)], [status] within the [CHECK] constraint. *)
Definition fits_columns (data : UpdateResourceDto) : Prop :=
  (forall s, u_name data = Some s -> (String.length s <= 255)%nat)
  /\ (forall s, u_status data = Some s -> s = "active" \/ s = "inactive").

(** The [SET] list that [update] builds from [data]. *)
Definition updates_of (data : UpdateResourceDto)
  : list (Sql.Column * string) :=
  ResourceModel.push_if Sql.ColStatus (u_status data)
    (ResourceModel.push_if Sql.ColDescription (u_description data)
       (ResourceModel.push_if Sql.ColName (u_name data) [])).

(** "With no fields supplied, update returns the existing row unchanged but
    still advances updatedAt to the current time": the other fields of the
    result are those of the row, and [updatedAt] is the current time in the
    result or in the stored row. *)
Definition update_touch_claim (rid : Z) (db : Store.Db) : Prop :=
  forall r,
    find (Sql.has_id rid) (Store.table db) = Some r ->
    exists res db',
      ResourceModel.update rid no_fields db = (Return (Some res), db')
      /\ (id res = Store.row_id r
          /\ name res = Store.row_name r
          /\ description res = Store.row_description r
          /\ status res = Store.row_status r
          /\ createdAt res = Store.row_createdAt r)
      /\ (updatedAt res = Store.clock db
          \/ exists r',
              find (Sql.has_id rid) (Store.table db') = Some r'
              /\ Store.row_updatedAt r' = Store.clock db).


(** ** Listing *)


(** The characters that a [LIKE] pattern reads as more than themselves. *)
Definition is_meta (c : ascii) : bool :=
  ((c =? "%") || (c =? "_") || (c =? "\"))%char.

Fixpoint meta_free (s : string) : bool :=
  match s with
  | EmptyString => true
  | String c s' => negb (is_meta c) && meta_free s'
  end.

(** [x] occurs in [s], case not counting. *)
Definition ci_includes (s x : string) : bool :=
  Js.includes (Sql.lower s) (Sql.lower x).

(** Most recent first. *)
Definition newest_first (a b : Store.Row) : Prop :=
  Store.row_createdAt b <= Store.row_createdAt a.

Definition default_num (v : option Z) (d : Z) : Z :=
  match v with
  | Some x => x
  | None => d
  end.

(** The predicate of the filters: the status, when given, is that of the
    row, and the search term, when given, occurs in the name or in the
    description. *)
Definition matches (f : ResourceFilters) (r : Store.Row) : bool :=
  match f_status f with
  | Some st => (Store.row_status r =? status_text st)%string
  | None => true
  end
  && match f_search f with
     | Some x =>
         ci_includes (Store.row_name r) x
         || ci_includes (Store.row_description r) x
     | None => true
     end.

(** What the specification says of [findAll]: the total counts the
    matching rows, the page is the slice of at most [limit] rows after
    [(page - 1) * limit] of the matching rows ordered most recent first, and
    [totalPages] is [total / limit] rounded up. *)
Definition findAll_claim (f : ResourceFilters) (db : Store.Db) : Prop :=
  let p := default_num (f_page f) 1 in
  let l := default_num (f_limit f) 10 in
  let matching := filter (matches f) (Store.table db) in
  exists resp db' sorted,
    ResourceModel.findAll f db = (Return resp, db')
    /\ Store.table db' = Store.table db
    /\ total (pagination resp) = Z.of_nat (List.length matching)
    /\ Permutation sorted matching
    /\ StronglySorted newest_first sorted
    /\ data resp
       = map ResourceModel.mapRowToResource
           (firstn (Z.to_nat l) (skipn (Z.to_nat ((p - 1) * l)) sorted))
    /\ Z.of_nat (List.length (data resp)) <= l
    /\ (totalPages (pagination resp) - 1) * l
       < total (pagination resp) <= totalPages (pagination resp) * l.

(** The search term, when given, has no pattern character. *)
Definition plain_search (f : ResourceFilters) : Prop :=
  forall x, f_search f = Some x -> meta_free x = true.

(** An optional number that is at least 1 when given. *)
Definition positive (v : option Z) : Prop := forall x, v = Some x -> 1 <= x.

(** The [LIMIT] and the [OFFSET] of the page are numbers that are exact:
    at most [Number.MAX_SAFE_INTEGER]. *)
Definition safe_page (f : ResourceFilters) : Prop :=
  default_num (f_limit f) 10 <= Js.MAX_SAFE_INTEGER
  /\ (default_num (f_page f) 1 - 1) * default_num (f_limit f) 10
     <= Js.MAX_SAFE_INTEGER.

(** The rows that [findAll] reads for [f]. *)
Definition page_of (f : ResourceFilters) (db : Store.Db) : list Store.Row :=
  firstn (Z.to_nat (Js.or_num (f_limit f) 10))
    (skipn (Z.to_nat ((Js.or_num (f_page f) 1 - 1) * Js.or_num (f_limit f) 10))
       (Sql.order_by_createdAt_desc
          (filter (Sql.eval_where (ResourceModel.build_where f))
             (Store.table db)))).

End Spec.

(* ===================================================================== *)
(** * Problem 4: the alternative implementations *)
(* ===================================================================== *)

Module SumToNAlt.



(** The default of [accumulator] is 0.  The call in tail position takes
    room on the stack like any other (the engine does not reuse the frame
    of the caller), so [stack] is the number of calls there is room for, as
    in [SumToN.sum_to_n_b]. *)
Fixpoint sum_to_n_e (stack : nat) (n accumulator : Z) : Outcome Z :=
  match stack with
  | O => Throw stack_overflow
  | S stack' =>
      if n <=? 0 then Return accumulator
      else sum_to_n_e stack' (n - 1) (accumulator + n)
  end.

(** A [Map<number, number>]: [get], [has] and [set] by key. *)
Definition NumberMap : Type := list (Z * Z).

Fixpoint map_get (m : NumberMap) (k : Z) : option Z :=
  match m with
  | [] => None
  | (k', v) :: m' => if k' =? k then Some v else map_get m' k
  end.

Definition map_has (m : NumberMap) (k : Z) : bool :=
  match map_get m k with
  | Some _ => true
  | None => false
  end.

Fixpoint map_set (m : NumberMap) (k v : Z) : NumberMap :=
  match m with
  | [] => [(k, v)]
  | (k', v') :: m' =>
      if k' =? k then (k, v) :: m' else (k', v') :: map_set m' k v
  end.

(** [sum_to_n_f] with its [cache] property passed in and out: [None] is
    the property before the first positive call. *)
Definition sum_to_n_f (n : Z) (cache : option NumberMap)
  : Z * option NumberMap :=
  if n <=? 0 then (0, cache)
  else
    let m := match cache with Some m => m | None => [] end in
    if map_has m n then
      (match map_get m n with Some v => v | None => 0 end, Some m)
    else
      let result := (n * (n + 1)) / 2 in
      (result, Some (map_set m n result)).

(** The [while (i <= n) { sum += i; i++; }] loop of [sum_to_n_g]. *)
Equations? loop_g (n sum i : Z) : Z by wf (Z.to_nat (n + 1 - i)) lt :=
  loop_g n sum i with Z_le_gt_dec i n => {
    | left _ := loop_g n (sum + i) (i + 1);
    | right _ := sum }.
Proof. lia. Qed.

Definition sum_to_n_g (n : Z) : Z :=
  if n <=? 0 then 0 else loop_g n 0 1.

(** The operands of [&] and [>>] are first brought to 32-bit signed
    integers, wrapping around. *)
Definition to_int32 (x : Z) : Z := (x + 2 ^ 31) mod 2 ^ 32 - 2 ^ 31.

(** [a & b] *)
Definition bit_and (a b : Z) : Z := Z.land (to_int32 a) (to_int32 b).

(** [a >> k] *)
Definition shift_right (a k : Z) : Z := Z.shiftr (to_int32 a) (k mod 32).

Definition sum_to_n_h (n : Z) : Z :=
  if n <=? 0 then 0
  else if bit_and n 1 =? 0 then shift_right n 1 * (n + 1)
       else shift_right (n + 1) 1 * n.

(** A run of calls of [sum_to_n_f], the cache going from each call to the
    next: the results, and the cache at the end. *)
Fixpoint calls_f (ns : list Z) (cache : option NumberMap)
  : list Z * option NumberMap :=
  match ns with
  | [] => ([], cache)
  | n :: ns' =>
      let (r, cache') := sum_to_n_f n cache in
      let (rs, cache'') := calls_f ns' cache' in
      (r :: rs, cache'')
  end.

End SumToNAlt.

(* ===================================================================== *)
(** * [parseInt] and [join] *)
(* ===================================================================== *)

Module JsNumber.

Local Open Scope string_scope.

Definition is_digit (c : ascii) : bool :=
  let n := nat_of_ascii c in ((48 <=? n) && (n <=? 57))%nat.

(** The longest prefix of decimal digits. *)
Fixpoint take_digits (s : string) : string :=
  match s with
  | EmptyString => EmptyString
  | String c s' => if is_digit c then String c (take_digits s') else EmptyString
  end.

(** The integer that a string of decimal digits denotes. *)
Definition digits_value (ds : string) : Z :=
  match NilEmpty.uint_of_string ds with
  | Some u => Z.of_uint u
  | None => 0
  end.

(** [parseInt(s, 10)]: leading white space is skipped, a sign is read, and
    the digits that follow are the number, whatever comes after them; with
    no digit there the result is [NaN], here [None].  The number is the
    integer the digits denote, as [parseInt] gives it within the safe
    integers. *)
Definition parseInt (s : string) : option Z :=
  let S := Js.trimStart s in
  let (negative, S) :=
    match S with
    | String "-" rest => (true, rest)
    | String "+" rest => (false, rest)
    | _ => (false, S)
    end in
  let ds := take_digits S in
  if ds =? "" then None
  else Some (if negative then - digits_value ds else digits_value ds).

End JsNumber.

Module JsArray.

Local Open Scope string_scope.

(** [arr.join(sep)] on an array of strings. *)
Fixpoint join (sep : string) (arr : list string) : string :=
  match arr with
  | [] => ""
  | [x] => x
  | x :: rest => x ++ sep ++ join sep rest
  end.

End JsArray.

(* ===================================================================== *)
(** * middleware/validation.ts: [handleValidationErrors] *)
(* ===================================================================== *)

Module Validation.

Local Open Scope string_scope.

(** One entry of [validationResult(req).array()]; only [msg] is read. *)
Record FieldError := mkFieldError {
  msg : string
}.

(** [errors] is what [validationResult(req)] holds, in order; [Return tt]
    stands for the call of [next()]. *)
Definition handleValidationErrors (errors : list FieldError) : Outcome unit :=
  if negb (List.length errors =? 0)%nat then
    let errorMessages := map (fun err => msg err) errors in
    Throw (ValidationError (JsArray.join ", " errorMessages))
  else Return tt.

End Validation.

(* ===================================================================== *)
(** * controllers/ResourceController.ts *)
(* ===================================================================== *)

Module ResourceController.

Import Store.
Local Open Scope string_scope.

(** The bodies that the handlers send: [{ success: true, data }],
    [{ success: true, message }] and
    [{ success: false, error: { message, statusCode } }].  The handler
    [findAll], which reads numbers that may be [NaN] from the query, is left
    out. *)
Inductive Body :=
| DataBody (data : Resource)
| MessageBody (message : string)
| FailureBody (message : string) (statusCode : Z).

(** What a handler does with a request: it sends a response, or it passes
    an error to [next]. *)
Inductive Handled :=
| Responded (status : Z) (body : Body)
| Next (e : JsError).

(** [try { ... res.status(s).json(...) } catch (error) { next(error) }] *)
Definition try_respond {A} (c : M A) (respond : A -> Handled) : M Handled :=
  fun db =>
    match c db with
    | (Return a, db') => (Return (respond a), db')
    | (Throw e, db') => (Return (Next e), db')
    end.

Definition invalid_id : Handled :=
  Responded 400 (FailureBody "Invalid resource ID" 400).

Definition create (body : CreateResourceDto) : M Handled :=
  try_respond (ResourceService.create body)
    (fun resource => Responded 201 (DataBody resource)).

Definition findById (params_id : string) : M Handled :=
  match JsNumber.parseInt params_id with
  | None => ret invalid_id
  | Some id =>
      try_respond (ResourceService.findById id)
        (fun resource => Responded 200 (DataBody resource))
  end.

Definition update (params_id : string) (body : UpdateResourceDto) : M Handled :=
  match JsNumber.parseInt params_id with
  | None => ret invalid_id
  | Some id =>
      try_respond (ResourceService.update id body)
        (fun resource => Responded 200 (DataBody resource))
  end.

Definition delete (params_id : string) : M Handled :=
  match JsNumber.parseInt params_id with
  | None => ret invalid_id
  | Some id =>
      try_respond (ResourceService.delete id)
        (fun _ => Responded 200 (MessageBody "Resource deleted successfully"))
  end.

End ResourceController.

(* ===================================================================== *)
(** * Vocabulary of the further properties *)
(* ===================================================================== *)

Module Laws.

Import Store.
Local Open Scope string_scope.

(** ** The cache of [sum_to_n_f] *)

(** Every entry of the cache holds the sum to its key. *)
Definition coherent (cache : option SumToNAlt.NumberMap) : Prop :=
  forall m k v,
    cache = Some m -> SumToNAlt.map_get m k = Some v ->
    v = SumToN.sum_to_n_c k.

(** ** Invariants of the store *)

(** A row that the columns of the table admit. *)
Definition row_ok (r : Row) : Prop :=
  (String.length (row_name r) <= 255)%nat
  /\ (row_status r = "active" \/ row_status r = "inactive").

(** A row created no later than it was last updated, and neither in the
    future. *)
Definition row_timed (now : Z) (r : Row) : Prop :=
  row_createdAt r <= row_updatedAt r <= now.

(** The ids are distinct and below the next value of the sequence, and
    every row is admitted by the columns and consistently timed. *)
Definition wf (db : Db) : Prop :=
  NoDup (map row_id (table db))
  /\ Forall (fun r => row_id r < serial db) (table db)
  /\ Forall row_ok (table db)
  /\ Forall (row_timed (clock db)) (table db).

(** ** Pages *)

(** [f] asking for page [k]. *)
Definition with_page (f : ResourceFilters) (k : Z) : ResourceFilters :=
  mkFilters (f_status f) (f_search f) (Some k) (f_limit f).

(** The rows that the [WHERE] clause of [f] selects, most recent first. *)
Definition selected (f : ResourceFilters) (db : Db) : list Row :=
  Sql.order_by_createdAt_desc
    (filter (Sql.eval_where (ResourceModel.build_where f)) (table db)).

(** The [k]-th run of [l] rows of a list, counting from 1. *)
Definition slice {A} (l k : Z) (rows : list A) : list A :=
  firstn (Z.to_nat l) (skipn (Z.to_nat ((k - 1) * l)) rows).

(** The resources of page [k] of [f], when [findAll] returns. *)
Definition page_data (f : ResourceFilters) (k : Z) (db : Db)
  : list Resource :=
  match fst (ResourceModel.findAll (with_page f k) db) with
  | Return p => data p
  | Throw _ => []
  end.

(** ** Path parameters *)

(** A string that does not start as a number does: it is empty, or its
    first character is neither white space, nor a sign, nor a digit. *)
Definition not_numeric (s : string) : Prop :=
  match s with
  | EmptyString => True
  | String c _ =>
      Js.is_white_space c = false /\ c <> "-"%char /\ c <> "+"%char
      /\ JsNumber.is_digit c = false
  end.

(** ** Update rules, in the order of [validateUpdateData] *)

Definition UpdateRule : Type := (UpdateResourceDto -> bool) * string.

Definition update_rules : list UpdateRule :=
  [ (fun d => match u_name d with
              | Some s => Spec.all_white s
              | None => false
              end,
     "Name cannot be empty");
    (fun d => match u_name d with
              | Some s => (255 <? String.length s)%nat
              | None => false
              end,
     "Name must be less than 255 characters");
    (fun d => match u_description d with
              | Some s => Spec.all_white s
              | None => false
              end,
     "Description cannot be empty");
    (fun d => match u_description d with
              | Some s => (1000 <? String.length s)%nat
              | None => false
              end,
     "Description must be less than 1000 characters");
    (fun d => match u_status d with
              | Some s => negb (s =? "active") && negb (s =? "inactive")
              | None => false
              end,
     ResourceService.status_message) ].

Fixpoint first_violated_update (rules : list UpdateRule)
         (d : UpdateResourceDto) : option string :=
  match rules with
  | [] => None
  | (violated, m) :: rules' =>
      if violated d then Some m else first_violated_update rules' d
  end.

End Laws.

(* ===================================================================== *)
(** * Properties: sum to n *)
(* ===================================================================== *)

Section SumToNFacts.

Import SumToN.

(** The product of two consecutive integers is even, so the division of
    [sum_to_n_c] is exact. *)
Lemma gauss_even (n : Z) : 2 * ((n * (n + 1)) / 2) = n * (n + 1).
Proof.
  assert (H : (n * (n + 1)) mod 2 = 0).
  { rewrite Z.mul_mod by lia.
    rewrite (Z.add_mod n 1) by lia.
    destruct (Z.mod_pos_bound n 2 ltac:(lia)) as [H0 H1].
    assert (n mod 2 = 0 \/ n mod 2 = 1) as [E | E] by lia;
      rewrite E; reflexivity. }
  pose proof (Z.div_mod (n * (n + 1)) 2 ltac:(lia)). lia.
Qed.

(** Loop invariant of [sum_to_n_a]: entering an iteration with counter [i]
    and accumulator [sum], the loop ends with [sum + i + ... + n]. *)
Lemma loop_a_sum (n i sum : Z) :
  1 <= i <= n + 1 ->
  2 * loop_a n i sum = 2 * sum + n * (n + 1) - (i - 1) * i.
Proof.
  funelim (loop_a n i sum); intros Hi.
  - rewrite H by lia. lia.
  - assert (i = n + 1) by lia. subst. lia.
Qed.

Lemma sum_to_n_a_closed (n : Z) :
  sum_to_n_a n = if n <=? 0 then 0 else (n * (n + 1)) / 2.
Proof.
  unfold sum_to_n_a. destruct (Z.leb_spec n 0) as [Hn | Hn]; [reflexivity |].
  pose proof (loop_a_sum n 1 0 ltac:(lia)) as Ha.
  pose proof (gauss_even n). lia.
Qed.

(** With room for [n] calls (for one call when [n <= 0]), [sum_to_n_b]
    returns, and returns the closed form. *)
Lemma sum_to_n_b_closed (stack : nat) (n : Z) :
  (1 <= stack)%nat -> n <= Z.of_nat stack ->
  sum_to_n_b stack n = Return (if n <=? 0 then 0 else (n * (n + 1)) / 2).
Proof.
  revert n. induction stack as [| stack IH]; intros n Hs Hn; [lia |].
  cbn [sum_to_n_b].
  destruct (Z.leb_spec n 0) as [H0 | H0]; [reflexivity |].
  destruct (Z.eqb_spec n 1) as [-> | H1]; [reflexivity |].
  rewrite IH by lia.
  destruct (Z.leb_spec (n - 1) 0) as [? | _]; [lia |].
  f_equal. pose proof (gauss_even n). pose proof (gauss_even (n - 1)).
  replace (n - 1 + 1) with n in * by lia. nia.
Qed.

(** With room for fewer than [n] calls, [sum_to_n_b] throws. *)
Lemma sum_to_n_b_overflows (stack : nat) (n : Z) :
  Z.of_nat stack < n -> sum_to_n_b stack n = Throw stack_overflow.
Proof.
  revert n. induction stack as [| stack IH]; intros n Hn; [reflexivity |].
  cbn [sum_to_n_b].
  destruct (Z.leb_spec n 0) as [? | _]; [lia |].
  destruct (Z.eqb_spec n 1) as [? | _]; [lia |].
  rewrite IH by lia. reflexivity.
Qed.

(** C9 (as the code has it). For every integer [n] whose sum is below
    [Number.MAX_SAFE_INTEGER], as the source assumes, and with room on the
    call stack for the [n] calls of [sum_to_n_b] (for one call when
    [n <= 0]), the three implementations agree, and each gives
    [n * (n + 1) / 2] when [n >= 1] and [0] when [n <= 0]. *)
Theorem sum_to_n_agree (stack : nat) (n : Z) :
  Spec.result_is_safe n ->
  (1 <= stack)%nat -> n <= Z.of_nat stack ->
  Spec.sums_agree_claim stack n.
Proof.
  intros _ Hs Hn. unfold Spec.sums_agree_claim.
  rewrite sum_to_n_a_closed, (sum_to_n_b_closed stack n Hs Hn).
  unfold sum_to_n_c.
  destruct (Z.leb_spec n 0) as [H0 | H0].
  - repeat split; try reflexivity; intros; lia.
  - repeat split; try reflexivity; intros; lia.
Qed.

(** The three implementations at [n = 100], with room for 100 calls. *)
Lemma sum_to_n_agree_witness : Spec.sums_agree_claim 100 100.
Proof.
  apply (sum_to_n_agree 100 100).
  - intros _. vm_compute. reflexivity.
  - apply Nat.leb_le. reflexivity.
  - apply Z.leb_le. reflexivity.
Defined.

(** C9 (as stated) fails: whatever room the call stack has, there is an
    [n] (the first one that needs more calls than that) at which
    [sum_to_n_b] throws the [RangeError] of the engine instead of returning
    what the loop and the formula return. *)
Lemma sum_to_n_agree_counterexample :
  ~ (exists stack, forall n, Spec.sums_agree_claim stack n).
Proof.
  intros (stack & H).
  destruct (H (Z.of_nat stack + 1)) as ((_ & Hb) & _).
  rewrite sum_to_n_b_overflows in Hb by lia. discriminate Hb.
Qed.

End SumToNFacts.

(* ===================================================================== *)
(** * Properties: the error translator *)
(* ===================================================================== *)

Section ErrorHandlerFacts.

Import ErrorHandler.
Local Open Scope string_scope.

(** C8. An [AppError] is answered with its own [statusCode] and the body
    [{ success: false, error: { message, statusCode } }]; the classes of the
    taxonomy carry 404, 400, 409 and 401.  Any other error is answered with
    500, with its raw message outside production and with
    "Internal server error" in production. *)
Theorem errorHandler_translates :
  (forall env cls msg code op,
      errorHandler env (AppError cls msg code op)
      = mkResponse code false (mkErrorBody msg code))
  /\ (forall env msg,
         res_status (errorHandler env (NotFoundError msg)) = 404
         /\ res_status (errorHandler env (ValidationError msg)) = 400
         /\ res_status (errorHandler env (ConflictError msg)) = 409
         /\ res_status (errorHandler env (UnauthorizedError msg)) = 401)
  /\ (forall env msg,
         env <> Some "production" ->
         errorHandler env (Error msg)
         = mkResponse 500 false (mkErrorBody msg 500))
  /\ (forall msg,
         errorHandler (Some "production") (Error msg)
         = mkResponse 500 false (mkErrorBody "Internal server error" 500)).
Proof.
  repeat split.
  - intros env msg Henv. unfold errorHandler.
    destruct env as [env |]; [| reflexivity].
    destruct (String.eqb_spec env "production") as [-> | _];
      [contradiction Henv |]; reflexivity.
Qed.

(** A database failure reported in development. *)
Lemma errorHandler_translates_witness :
  errorHandler (Some "development") (Error "connection refused")
  = mkResponse 500 false (mkErrorBody "connection refused" 500).
Proof.
  apply (proj1 (proj2 (proj2 errorHandler_translates))). discriminate.
Defined.

End ErrorHandlerFacts.

(* ===================================================================== *)
(** * Properties: the auth gate *)
(* ===================================================================== *)

Section AuthFacts.

Import Auth Spec.
Local Open Scope string_scope.

Lemma no_key_falsy (v : option string) : no_key v -> Js.truthy v = false.
Proof. intros [-> | ->]; reflexivity. Qed.

Lemma truthy_some (s : string) : s <> "" -> Js.truthy (Some s) = true.
Proof.
  intros Hs. simpl. destruct (String.eqb_spec s ""); [contradiction | reflexivity].
Qed.

Lemma or_str_some (s d : string) : s <> "" -> Js.or_str (Some s) d = s.
Proof.
  intros Hs. simpl. destruct (String.eqb_spec s ""); [contradiction | reflexivity].
Qed.

(** The key the gate compares: the header when it carries one, else the
    query parameter. *)
Lemma gate_on_key (key p : string) (req : Request) :
  key <> "" -> p <> "" ->
  Js.or_opt (header_x_api_key req) (query_apiKey req) = Some p ->
  authenticateApiKey (Some key) req
  = if p =? key then Return tt else Throw (UnauthorizedError "Invalid API key.").
Proof.
  intros Hk Hp Hor. unfold authenticateApiKey.
  cbv zeta. rewrite Hor, (truthy_some key Hk), (truthy_some p Hp).
  rewrite (or_str_some p "" Hp), (or_str_some key "" Hk).
  destruct (p =? key); reflexivity.
Qed.

(** C7. With a configured key: no key in the header and none in the query
    gives a 401 [UnauthorizedError] saying "API key is required"; a key that
    differs from the configured one gives a 401 [UnauthorizedError] saying
    "Invalid API key"; the configured key, in the header or (with no header
    key) in the query, lets the request through.  With no configured key
    every request goes through. *)
Theorem authenticateApiKey_gate :
  (forall key req,
      key <> "" ->
      no_key (header_x_api_key req) -> no_key (query_apiKey req) ->
      exists msg,
        authenticateApiKey (Some key) req
        = Throw (AppError UnauthorizedErrorClass msg 401 true)
        /\ Js.includes msg "API key is required" = true)
  /\ (forall key req p,
         key <> "" -> p <> "" -> p <> key ->
         (header_x_api_key req = Some p
          \/ (no_key (header_x_api_key req) /\ query_apiKey req = Some p)) ->
         exists msg,
           authenticateApiKey (Some key) req
           = Throw (AppError UnauthorizedErrorClass msg 401 true)
           /\ Js.includes msg "Invalid API key" = true)
  /\ (forall key req,
         key <> "" ->
         (header_x_api_key req = Some key
          \/ (no_key (header_x_api_key req) /\ query_apiKey req = Some key)) ->
         authenticateApiKey (Some key) req = Return tt)
  /\ (forall cfg req, no_key cfg -> authenticateApiKey cfg req = Return tt).
Proof.
  assert (Hsel : forall req p, p <> "" ->
             header_x_api_key req = Some p
             \/ (no_key (header_x_api_key req) /\ query_apiKey req = Some p) ->
             Js.or_opt (header_x_api_key req) (query_apiKey req) = Some p).
  { intros req p Hp [Hh | [Hh Hq]]; unfold Js.or_opt.
    - rewrite Hh, (truthy_some p Hp). reflexivity.
    - rewrite (no_key_falsy _ Hh). exact Hq. }
  repeat split.
  - intros key req Hk Hh Hq. exists required_message. split; [| reflexivity].
    unfold authenticateApiKey, Js.or_opt.
    rewrite (truthy_some key Hk), (no_key_falsy _ Hh), (no_key_falsy _ Hq).
    reflexivity.
  - intros key req p Hk Hp Hne Hsrc. exists "Invalid API key.".
    split; [| reflexivity].
    rewrite (gate_on_key key p req Hk Hp (Hsel req p Hp Hsrc)).
    destruct (String.eqb_spec p key); [contradiction | reflexivity].
  - intros key req Hk Hsrc.
    rewrite (gate_on_key key key req Hk Hk (Hsel req key Hk Hsrc)).
    rewrite String.eqb_refl. reflexivity.
  - intros cfg req Hcfg. unfold authenticateApiKey.
    rewrite (no_key_falsy _ Hcfg). reflexivity.
Qed.

(** The test key, sent in the query string alone. *)
Lemma authenticateApiKey_gate_witness :
  authenticateApiKey (Some "test-api-key-12345")
    (mkRequest None (Some "test-api-key-12345")) = Return tt.
Proof.
  apply (proj1 (proj2 (proj2 authenticateApiKey_gate))).
  - discriminate.
  - right. split; [left |]; reflexivity.
Defined.

End AuthFacts.

(* ===================================================================== *)
(** * Properties: validation of create *)
(* ===================================================================== *)

Section ValidationFacts.

Import Store Spec.
Local Open Scope string_scope.

Lemma trimStart_cases (s : string) :
  (Js.trimStart s = "" /\ all_white s = true)
  \/ (exists c t, Js.trimStart s = String c t
                  /\ Js.is_white_space c = false /\ all_white s = false).
Proof.
  induction s as [| c s IH]; simpl.
  - left. split; reflexivity.
  - destruct (Js.is_white_space c) eqn:Hc; simpl.
    + exact IH.
    + right. exists c, s. repeat split. exact Hc.
Qed.

Lemma trimEnd_nonempty (c : ascii) (t : string) :
  Js.is_white_space c = false -> Js.trimEnd (String c t) <> "".
Proof.
  intros Hc. simpl. destruct (Js.trimEnd t); [rewrite Hc |]; discriminate.
Qed.

(** [s.trim().length === 0] holds exactly of the strings of white space. *)
Lemma trim_empty (s : string) : (Js.len (Js.trim s) =? 0)%Z = all_white s.
Proof.
  unfold Js.trim, Js.len.
  destruct (trimStart_cases s) as [[E W] | (c & t & E & Hc & W)]; rewrite E, W.
  - reflexivity.
  - pose proof (trimEnd_nonempty c t Hc) as Hne.
    destruct (Js.trimEnd (String c t)); [contradiction |].
    reflexivity.
Qed.

Lemma blank_spec (v : option string) :
  ResourceService.blank v
  = match v with None => true | Some s => all_white s end.
Proof.
  unfold ResourceService.blank. destruct v as [s |]; [| reflexivity].
  simpl. destruct (String.eqb_spec s "") as [-> | Hs]; [reflexivity |].
  simpl. apply trim_empty.
Qed.

Lemma longer_spec (v : option string) (n : nat) (z : Z) :
  z = Z.of_nat n ->
  ResourceService.longer v z
  = match v with None => false | Some s => (n <? String.length s)%nat end.
Proof.
  intros ->.
  destruct v as [s |]; [| reflexivity]. unfold ResourceService.longer, Js.len.
  destruct (Nat.ltb_spec n (String.length s)); lia.
Qed.

Lemma status_spec (v : option string) :
  Js.truthy v && negb (Js.arr_includes ["active"; "inactive"] (Js.or_str v ""))
  = match v with
    | None => false
    | Some s => negb (s =? "") && negb (s =? "active") && negb (s =? "inactive")
    end.
Proof.
  destruct v as [s |]; [| reflexivity]. simpl.
  destruct (s =? "") eqn:E; [reflexivity |]. simpl.
  rewrite orb_false_r, negb_orb. reflexivity.
Qed.

(** The chain of tests of [validateCreateData] reports the first rule of
    [create_rules_given] that the input violates. *)
Lemma validateCreateData_chain (d : CreateResourceDto) :
  ResourceService.validateCreateData d
  = match first_violated create_rules_given d with
    | Some msg => Throw (ValidationError msg)
    | None => Return tt
    end.
Proof.
  unfold ResourceService.validateCreateData.
  rewrite !blank_spec, status_spec.
  rewrite (longer_spec (c_name d) 255 255 eq_refl).
  rewrite (longer_spec (c_description d) 1000 1000 eq_refl).
  simpl.
  repeat match goal with
         | |- context [if ?b then _ else _] => destruct b
         end; reflexivity.
Qed.

Lemma create_messages_distinct : NoDup (map snd create_rules_given).
Proof.
  repeat constructor; simpl; intros H;
    repeat (destruct H as [H | H]; [vm_compute in H; discriminate |]); exact H.
Qed.

(** The two lists of rules differ on the empty status only. *)
Lemma create_rules_given_stated (d : CreateResourceDto) :
  c_status d <> Some "" ->
  first_violated create_rules_given d = first_violated create_rules d.
Proof.
  intros Hs. unfold create_rules_given, create_rules, first_violated,
    status_enum_given, status_enum.
  destruct (c_status d) as [s |]; [| reflexivity].
  destruct (String.eqb_spec s "") as [-> | _]; [contradiction |].
  reflexivity.
Qed.

Ltac unfold_rules :=
  unfold create_rules_given, first_violated, name_presence, name_length,
    description_presence, description_length, status_enum_given;
  cbn [c_name c_description c_status fst snd].

(** C4 (as the code has it). [validateCreateData] fails on the first
    violated rule in the order name presence, name length, description
    presence, description length, status enum, the status rule applying to
    a status that is present and not the empty string; the five messages
    differ from one another.  For an input whose status is not the empty
    string these are the rules as stated, and an empty status is validated
    as an absent one.  A name of exactly 255 characters never draws the
    message about 255 and is accepted when the rest of the input is valid;
    a name of 256 characters that is not white space only is rejected with
    a [ValidationError] whose message contains "255", and a name of 256
    white-space characters is rejected by the presence rule, which comes
    first. *)
Theorem validateCreateData_first_violation :
  (forall d,
      ResourceService.validateCreateData d
      = match first_violated create_rules_given d with
        | Some msg => Throw (ValidationError msg)
        | None => Return tt
        end)
  /\ NoDup (map snd create_rules_given)
  /\ (forall d,
         c_status d <> Some "" ->
         ResourceService.validateCreateData d
         = match first_violated create_rules d with
           | Some msg => Throw (ValidationError msg)
           | None => Return tt
           end)
  /\ (forall n dsc,
         ResourceService.validateCreateData (mkCreate n dsc (Some ""))
         = ResourceService.validateCreateData (mkCreate n dsc None))
  /\ (forall d s,
         c_name d = Some s -> String.length s = 255%nat ->
         forall e, ResourceService.validateCreateData d = Throw e ->
                   Js.includes (error_message e) "255" = false)
  /\ (forall s t,
         String.length s = 255%nat -> all_white s = false ->
         all_white t = false -> (String.length t <= 1000)%nat ->
         ResourceService.validateCreateData (mkCreate (Some s) (Some t) None)
         = Return tt)
  /\ (forall d s,
         c_name d = Some s -> String.length s = 256%nat -> all_white s = false ->
         exists msg,
           ResourceService.validateCreateData d
           = Throw (AppError ValidationErrorClass msg 400 true)
           /\ Js.includes msg "255" = true)
  /\ (forall d s,
         c_name d = Some s -> String.length s = 256%nat -> all_white s = true ->
         ResourceService.validateCreateData d
         = Throw (ValidationError "Name is required")).
Proof.
  split; [exact validateCreateData_chain |].
  split; [exact create_messages_distinct |].
  split; [| split; [| split; [| split; [| split]]]].
  - intros d Hs. rewrite validateCreateData_chain.
    rewrite (create_rules_given_stated d Hs). reflexivity.
  - intros n dsc. reflexivity.
  - intros d s Hn Hl e. rewrite validateCreateData_chain. unfold_rules.
    rewrite Hn, Hl. change (255 <? 255)%nat with false.
    repeat match goal with
           | |- context [if ?b then _ else _] => destruct b
           end; intros He; inversion He; reflexivity.
  - intros s t Hl Hs Ht Hlt. rewrite validateCreateData_chain. unfold_rules.
    rewrite Hs, Ht, Hl. change (255 <? 255)%nat with false.
    destruct (Nat.ltb_spec 1000 (String.length t)); [lia | reflexivity].
  - intros d s Hn Hl Hs. exists "Name must be less than 255 characters".
    split; [| reflexivity]. rewrite validateCreateData_chain. unfold_rules.
    rewrite Hn, Hs, Hl. reflexivity.
  - intros d s Hn Hl Hs. rewrite validateCreateData_chain. unfold_rules.
    rewrite Hn, Hs. reflexivity.
Qed.

(** A name of 256 letters, with a valid description. *)
Lemma validateCreateData_first_violation_witness :
  exists msg,
    ResourceService.validateCreateData
      (mkCreate (Some (repeat_char 256 "a")) (Some "Test Description") None)
    = Throw (AppError ValidationErrorClass msg 400 true)
    /\ Js.includes msg "255" = true.
Proof.
  apply (proj1 (proj2 (proj2 (proj2 (proj2 (proj2 (proj2
           validateCreateData_first_violation))))))
           _ (repeat_char 256 "a")); reflexivity.
Defined.

(** C4 (as stated) fails: with a valid name and description and the empty
    string as status, validation passes although the status is present and
    is neither "active" nor "inactive"; and a name of 256 spaces is rejected
    with "Name is required", a message that does not contain "255". *)
Lemma validateCreateData_first_violation_counterexample :
  ~ first_violation_claim
      (mkCreate (Some "Test Resource") (Some "Test Description") (Some ""))
  /\ ~ first_violation_claim
         (mkCreate (Some (repeat_char 256 " ")) (Some "Test Description") None).
Proof.
  split.
  - intros [H _]. vm_compute in H. discriminate H.
  - intros [_ H].
    destruct (H (repeat_char 256 " ") eq_refl eq_refl) as (msg & E & Hm).
    vm_compute in E. injection E as <-. vm_compute in Hm. discriminate Hm.
Qed.

Lemma varchar_fits (n : nat) (s : string) :
  (String.length s <= n)%nat -> Sql.varchar n s = Some s.
Proof.
  intros H. unfold Sql.varchar.
  destruct (Nat.leb_spec (String.length s) n); [reflexivity | lia].
Qed.

Lemma store_name_fits (s : string) :
  (String.length s <= 255)%nat -> Sql.store_name s = Return s.
Proof.
  intros H. unfold Sql.store_name. rewrite (varchar_fits 255 s H). reflexivity.
Qed.

(** C10. A create input whose [status] is the empty string is validated
    and created exactly as the same input without [status]; when its name
    and description are valid, validation passes, and when they are also
    text that the store takes (no code unit 0) and the sequence of ids has
    a value left, the row is stored with status "active". *)
Theorem create_empty_status (n dsc : option string) (db : Db) :
  ResourceService.validateCreateData (mkCreate n dsc (Some ""))
  = ResourceService.validateCreateData (mkCreate n dsc None)
  /\ ResourceService.create (mkCreate n dsc (Some "")) db
     = ResourceService.create (mkCreate n dsc None) db
  /\ (forall s t,
         n = Some s -> dsc = Some t ->
         all_white s = false -> (String.length s <= 255)%nat ->
         all_white t = false -> (String.length t <= 1000)%nat ->
         ResourceService.validateCreateData (mkCreate n dsc (Some ""))
         = Return tt
         /\ (no_nul s = true -> no_nul t = true -> int4 (serial db) ->
             ResourceService.create (mkCreate n dsc (Some "")) db
             = (Return (mkResource (serial db) s t "active"
                                   (clock db) (clock db)),
                mkDb (table db
                      ++ [mkRow (serial db) s t "active" (clock db) (clock db)])
                     (serial db + 1) (clock db) (log db ++ [StmtInsert])))).
Proof.
  split; [reflexivity |]. split; [reflexivity |].
  intros s t -> -> Hs Hls Ht Hlt.
  assert (Hv : ResourceService.validateCreateData
                 (mkCreate (Some s) (Some t) (Some "")) = Return tt).
  { rewrite validateCreateData_chain. unfold_rules.
    rewrite Hs, Ht.
    destruct (Nat.ltb_spec 255 (String.length s)); [lia |].
    destruct (Nat.ltb_spec 1000 (String.length t)); [lia |]. reflexivity. }
  split; [exact Hv |]. intros _ _ _.
  unfold ResourceService.create, bind, lift. rewrite Hv.
  unfold ResourceModel.create, Sql.insert, bind, lift, sent, next_serial, get,
    set_table, ret.
  cbn [c_name c_description c_status Js.or_str String.eqb].
  rewrite (store_name_fits s Hls).
  reflexivity.
Qed.

(** Creating a resource with an empty status in an empty store. *)
Lemma create_empty_status_witness :
  ResourceService.create
    (mkCreate (Some "Test Resource") (Some "Test Description") (Some ""))
    (mkDb [] 1 1000 [])
  = (Return (mkResource 1 "Test Resource" "Test Description" "active" 1000 1000),
     mkDb [mkRow 1 "Test Resource" "Test Description" "active" 1000 1000]
          2 1000 [StmtInsert]).
Proof.
  apply (proj2 (proj2 (proj2 (create_empty_status
           (Some "Test Resource") (Some "Test Description") (mkDb [] 1 1000 [])))
           "Test Resource" "Test Description" eq_refl eq_refl eq_refl
           ltac:(simpl; lia) eq_refl ltac:(simpl; lia))
           eq_refl eq_refl ltac:(unfold int4; simpl; lia)).
Defined.

End ValidationFacts.

(* ===================================================================== *)
(** * Properties: reading the store *)
(* ===================================================================== *)

Section StoreFacts.

Import Store Spec.
Local Open Scope string_scope.

Lemma find_filter {A} (p : A -> bool) (l : list A) (r : A) :
  find p l = Some r -> exists rest, filter p l = r :: rest.
Proof.
  induction l as [| x l IH]; simpl; [discriminate |].
  destruct (p x) eqn:Hx.
  - intros [= ->]. eexists. reflexivity.
  - exact IH.
Qed.

(** No row has the id: nothing is selected, and nothing is deleted. *)
Lemma filter_absent (rid : Z) (t : list Row) :
  (forall r, In r t -> row_id r <> rid) ->
  filter (Sql.has_id rid) t = []
  /\ filter (fun r => negb (Sql.has_id rid r)) t = t.
Proof.
  induction t as [| x t IH]; intros H; [split; reflexivity |].
  assert (Hx : Sql.has_id rid x = false).
  { unfold Sql.has_id. apply Z.eqb_neq. apply H. left. reflexivity. }
  destruct IH as [IH1 IH2]; [intros r Hr; apply H; right; exact Hr |].
  simpl. rewrite Hx. simpl. rewrite IH1, IH2. split; reflexivity.
Qed.

Lemma model_findById_absent (rid : Z) (db : Db) :
  (forall r, In r (table db) -> row_id r <> rid) ->
  ResourceModel.findById rid db = (Return None, sent_to db [StmtSelectById]).
Proof.
  intros H.
  unfold ResourceModel.findById, Sql.select_by_id, bind, sent, get, ret.
  cbn [table]. rewrite (proj1 (filter_absent rid (table db) H)). reflexivity.
Qed.

Lemma model_findById_present (rid : Z) (db : Db) (r : Row) :
  find (Sql.has_id rid) (table db) = Some r ->
  ResourceModel.findById rid db
  = (Return (Some (ResourceModel.mapRowToResource r)),
     sent_to db [StmtSelectById]).
Proof.
  intros H. destruct (find_filter _ _ _ H) as [rest Hf].
  unfold ResourceModel.findById, Sql.select_by_id, bind, sent, get, ret.
  cbn [table]. rewrite Hf. reflexivity.
Qed.

Lemma model_delete_absent (rid : Z) (db : Db) :
  (forall r, In r (table db) -> row_id r <> rid) ->
  ResourceModel.delete rid db = (Return false, sent_to db [StmtDelete]).
Proof.
  intros H.
  unfold ResourceModel.delete, Sql.delete, bind, sent, get, ret, set_table.
  cbn [table serial clock log].
  destruct (filter_absent rid (table db) H) as [-> ->]. reflexivity.
Qed.

(** ** Substrings *)

Lemma includes_unfold (s x : string) :
  Js.includes s x
  = prefix x s
    || match s with
       | EmptyString => false
       | String _ s' => Js.includes s' x
       end.
Proof. destruct s; reflexivity. Qed.

Lemma includes_empty (s : string) : Js.includes s "" = true.
Proof. destruct s; reflexivity. Qed.

Lemma prefix_append (x b : string) : prefix x (x ++ b) = true.
Proof.
  induction x as [| c x IH]; simpl.
  - destruct b; reflexivity.
  - destruct (ascii_dec c c); [exact IH | contradiction].
Qed.

Lemma includes_middle (a x b : string) : Js.includes (a ++ x ++ b) x = true.
Proof.
  induction a as [| c a IH].
  - simpl append. rewrite includes_unfold, prefix_append. reflexivity.
  - simpl. rewrite IH. apply orb_true_r.
Qed.

Lemma not_found_message_has_id (rid : Z) :
  Js.includes (ResourceService.not_found_message rid) (Js.num_to_string rid)
  = true.
Proof. unfold ResourceService.not_found_message. apply includes_middle. Qed.

(** C5. When no row has the id, an id being a value of the [INTEGER]
    type of the [id] column, [findById], [update] with valid data and
    [delete] of the service each throw a [NotFoundError] whose message
    contains the id; each sends one statement and leaves the contents of the
    store as they were, and a second [delete] has the same outcome. *)
Theorem service_not_found (rid : Z) (db : Db) :
  int4 rid ->
  (forall r, In r (table db) -> row_id r <> rid) ->
  exists msg,
    Js.includes msg (Js.num_to_string rid) = true
    /\ ResourceService.findById rid db
       = (Throw (AppError NotFoundErrorClass msg 404 true),
          sent_to db [StmtSelectById])
    /\ (forall data,
           ResourceService.validateUpdateData data = Return tt ->
           ResourceService.update rid data db
           = (Throw (AppError NotFoundErrorClass msg 404 true),
              sent_to db [StmtSelectById]))
    /\ ResourceService.delete rid db
       = (Throw (AppError NotFoundErrorClass msg 404 true),
          sent_to db [StmtDelete])
    /\ ResourceService.delete rid (sent_to db [StmtDelete])
       = (Throw (AppError NotFoundErrorClass msg 404 true),
          sent_to db [StmtDelete; StmtDelete]).
Proof.
  intros _ H. exists (ResourceService.not_found_message rid).
  split; [apply not_found_message_has_id |].
  split; [| split; [| split]].
  - unfold ResourceService.findById, bind.
    rewrite (model_findById_absent rid db H). reflexivity.
  - intros data Hv. unfold ResourceService.update, bind, lift. rewrite Hv.
    unfold ResourceModel.update, bind.
    rewrite (model_findById_absent rid db H). reflexivity.
  - unfold ResourceService.delete, bind.
    rewrite (model_delete_absent rid db H). reflexivity.
  - unfold ResourceService.delete, bind.
    rewrite (model_delete_absent rid (sent_to db [StmtDelete]) H).
    unfold sent_to. cbn [table serial clock log]. rewrite <- app_assoc.
    reflexivity.
Qed.

(** Resource 99999 in a store that holds resource 1 only. *)
Lemma service_not_found_witness :
  exists msg,
    Js.includes msg "99999" = true
    /\ ResourceService.findById 99999 example_store
       = (Throw (AppError NotFoundErrorClass msg 404 true),
          sent_to example_store [StmtSelectById])
    /\ (forall data,
           ResourceService.validateUpdateData data = Return tt ->
           ResourceService.update 99999 data example_store
           = (Throw (AppError NotFoundErrorClass msg 404 true),
              sent_to example_store [StmtSelectById]))
    /\ ResourceService.delete 99999 example_store
       = (Throw (AppError NotFoundErrorClass msg 404 true),
          sent_to example_store [StmtDelete])
    /\ ResourceService.delete 99999 (sent_to example_store [StmtDelete])
       = (Throw (AppError NotFoundErrorClass msg 404 true),
          sent_to example_store [StmtDelete; StmtDelete]).
Proof.
  apply (service_not_found 99999 example_store).
  - unfold int4. simpl. lia.
  - intros r [<- | []]. discriminate.
Defined.

End StoreFacts.

(* ===================================================================== *)
(** * Properties: update *)
(* ===================================================================== *)

Section UpdateFacts.

Import Store Spec.
Local Open Scope string_scope.

(** C1 (as the code has it). When the row exists and no field is
    supplied, [update] returns the existing row as it is, [updatedAt]
    included: only the [SELECT] of [findById] is sent, and the store keeps
    its contents. *)
Theorem update_without_fields (rid : Z) (db : Db) (r : Row) :
  find (Sql.has_id rid) (table db) = Some r ->
  ResourceModel.update rid no_fields db
  = (Return (Some (ResourceModel.mapRowToResource r)),
     sent_to db [StmtSelectById]).
Proof.
  intros H. unfold ResourceModel.update, bind.
  rewrite (model_findById_present rid db r H). reflexivity.
Qed.

(** An empty update of resource 1, read at time 2000. *)
Lemma update_without_fields_witness :
  ResourceModel.update 1 no_fields example_store
  = (Return (Some (mkResource 1 "Test Resource" "Test Description" "active"
                              1000 1000)),
     sent_to example_store [StmtSelectById]).
Proof.
  apply (update_without_fields 1 example_store
           (mkRow 1 "Test Resource" "Test Description" "active" 1000 1000)).
  reflexivity.
Defined.

(** C1 (as stated) fails: the empty update of resource 1 at time 2000
    leaves [updatedAt] at 1000, in the result and in the store. *)
Lemma update_without_fields_counterexample :
  ~ update_touch_claim 1 example_store.
Proof.
  intros H.
  destruct (H _ eq_refl) as (res & db' & E & _ & [Hu | (r' & Hf & Hu)]);
    vm_compute in E; injection E as <- <-.
  - vm_compute in Hu. discriminate.
  - vm_compute in Hf. injection Hf as <-. vm_compute in Hu. discriminate.
Qed.

Lemma store_status_ok (s : string) :
  s = "active" \/ s = "inactive" -> Sql.store_status s = Return s.
Proof. intros [-> | ->]; reflexivity. Qed.

(** The assignments of a fitting update succeed and give the row with the
    supplied fields. *)
Lemma assign_all_fits (data : UpdateResourceDto) (now : Z) (r : Row) :
  fits_columns data ->
  match Sql.assign_all r (updates_of data) with
  | Return r' => Sql.touch now r' = with_fields data now r
  | Throw _ => False
  end.
Proof.
  intros [Hn Hs]. unfold updates_of, with_fields.
  destruct data as [[n |] [d |] [s |]]; cbn in Hn, Hs |- *;
    try rewrite (store_name_fits n (Hn n eq_refl));
    try rewrite (store_status_ok s (Hs s eq_refl));
    destruct r; reflexivity.
Qed.

Lemma update_rows_fits (data : UpdateResourceDto) (rid now : Z)
      (t : list Row) :
  fits_columns data ->
  Sql.update_rows (updates_of data) rid now t
  = Return (map (fun x => if Sql.has_id rid x
                          then with_fields data now x else x) t).
Proof.
  intros Hfit. induction t as [| x t IH]; [reflexivity |].
  simpl. rewrite IH. destruct (Sql.has_id rid x); [| reflexivity].
  pose proof (assign_all_fits data now x Hfit) as Ha.
  destruct (Sql.assign_all x (updates_of data)); [| contradiction].
  rewrite Ha. reflexivity.
Qed.

(** [RETURNING *] gives the rows of the id, updated. *)
Lemma filter_updated (data : UpdateResourceDto) (rid now : Z) (t : list Row) :
  filter (Sql.has_id rid)
    (map (fun x => if Sql.has_id rid x then with_fields data now x else x) t)
  = map (with_fields data now) (filter (Sql.has_id rid) t).
Proof.
  induction t as [| x t IH]; [reflexivity |].
  simpl. destruct (Sql.has_id rid x) eqn:Hx.
  - assert (Hx' : Sql.has_id rid (with_fields data now x) = true) by exact Hx.
    rewrite Hx'. simpl. rewrite IH. reflexivity.
  - rewrite Hx. exact IH.
Qed.

Lemma supplied_updates (data : UpdateResourceDto) :
  supplied data -> (List.length (updates_of data) =? 0)%nat = false.
Proof.
  intros H. destruct data as [[n |] [d |] [s |]]; try reflexivity.
  destruct H as [H | [H | H]]; contradiction H; reflexivity.
Qed.




End UpdateFacts.

(* ===================================================================== *)
(** * Properties: listing *)
(* ===================================================================== *)

Section ListingFacts.

Import Store Spec.
Local Open Scope string_scope.

(** With a limit and an offset that the store accepts, [findAll] sends the
    count and the page query and returns what they give. *)
Lemma findAll_runs (f : ResourceFilters) (db : Db) :
  0 <= Js.or_num (f_limit f) 10 ->
  0 <= (Js.or_num (f_page f) 1 - 1) * Js.or_num (f_limit f) 10 ->
  ResourceModel.findAll f db
  = (Return
       (mkPaginated
          (map ResourceModel.mapRowToResource (page_of f db))
          (let total :=
             Z.of_nat (List.length
                         (filter (Sql.eval_where (ResourceModel.build_where f))
                            (table db))) in
           mkPagination (Js.or_num (f_page f) 1) (Js.or_num (f_limit f) 10)
             total (Js.ceil_div total (Js.or_num (f_limit f) 10)))),
     sent_to db [StmtCount; StmtSelectPage]).
Proof.
  intros Hl Ho.
  unfold ResourceModel.findAll, Sql.count, Sql.select_page, bind, sent, get,
    ret, throw, page_of, sent_to.
  cbn [table serial clock log].
  destruct (Z.ltb_spec (Js.or_num (f_limit f) 10) 0) as [? | _]; [lia |].
  destruct (Z.ltb_spec
              ((Js.or_num (f_page f) 1 - 1) * Js.or_num (f_limit f) 10) 0)
    as [? | _]; [lia |].
  rewrite <- app_assoc. reflexivity.
Qed.






(** ** Patterns without pattern characters *)

Lemma lower_char_meta (c : ascii) : is_meta (Sql.lower_char c) = is_meta c.
Proof.
  destruct c as [[] [] [] [] [] [] [] []]; reflexivity.
Qed.

Lemma lower_meta_free (s : string) : meta_free (Sql.lower s) = meta_free s.
Proof.
  induction s as [| c s IH]; [reflexivity |].
  simpl. rewrite lower_char_meta, IH. reflexivity.
Qed.

Lemma lower_append (a b : string) :
  Sql.lower (a ++ b) = Sql.lower a ++ Sql.lower b.
Proof.
  induction a as [| c a IH]; [reflexivity |]. simpl. rewrite IH. reflexivity.
Qed.

(** A leading [%] matches here, or after one more character. *)
Lemma like_percent (p s : string) :
  Sql.like (String "%" p) s
  = Sql.like p s
    || match s with
       | EmptyString => false
       | String _ s' => Sql.like (String "%" p) s'
       end.
Proof. destruct s; reflexivity. Qed.

Lemma like_any (s : string) : Sql.like "%" s = true.
Proof.
  induction s as [| c s IH]; [reflexivity |].
  rewrite like_percent. rewrite IH. apply orb_true_r.
Qed.

Lemma like_literal (c : ascii) (p s : string) :
  is_meta c = false ->
  Sql.like (String c p) s
  = match s with
    | EmptyString => false
    | String x s' => (x =? c)%char && Sql.like p s'
    end.
Proof.
  unfold is_meta. intros H.
  apply orb_false_elim in H as [H H3]. apply orb_false_elim in H as [H1 H2].
  simpl. rewrite H1, H2, H3. reflexivity.
Qed.

Lemma like_prefix (p s : string) :
  meta_free p = true -> Sql.like (p ++ "%") s = prefix p s.
Proof.
  revert s. induction p as [| c p IH]; intros s H.
  - simpl append. rewrite like_any. destruct s; reflexivity.
  - simpl in H. apply andb_prop in H as [Hc Hp].
    apply negb_true_iff in Hc.
    simpl append. rewrite (like_literal c _ s Hc).
    destruct s as [| x s]; [reflexivity |].
    simpl. rewrite (IH s Hp).
    destruct (ascii_dec c x) as [-> | Hne].
    + rewrite Ascii.eqb_refl. reflexivity.
    + destruct (Ascii.eqb_spec x c) as [-> | _];
        [contradiction | reflexivity].
Qed.

Lemma like_includes (p s : string) :
  meta_free p = true -> Sql.like ("%" ++ p ++ "%") s = Js.includes s p.
Proof.
  intros H. induction s as [| x s IH].
  - simpl append. rewrite like_percent, (like_prefix p "" H). simpl.
    rewrite orb_false_r. reflexivity.
  - simpl append in *.
    rewrite like_percent, IH, (like_prefix p _ H). reflexivity.
Qed.

(** For a search term without pattern characters, [ILIKE '%term%'] is the
    search for the term, case not counting. *)
Lemma ilike_includes (x s : string) :
  meta_free x = true -> Sql.ilike ("%" ++ x ++ "%") s = ci_includes s x.
Proof.
  intros H. unfold Sql.ilike, ci_includes.
  rewrite !lower_append. change (Sql.lower "%") with "%".
  apply like_includes. rewrite lower_meta_free. exact H.
Qed.

Lemma eval_where_matches (f : ResourceFilters) (r : Row) :
  plain_search f ->
  Sql.eval_where (ResourceModel.build_where f) r = matches f r.
Proof.
  intros Hplain. unfold ResourceModel.build_where, matches, Sql.eval_where.
  destruct (f_search f) as [x |] eqn:Ex.
  - specialize (Hplain x Ex). simpl Js.truthy.
    destruct (String.eqb_spec x "") as [-> | Hx].
    + simpl negb. cbv iota. unfold ci_includes. simpl Sql.lower.
      rewrite !includes_empty.
      destruct (f_status f); simpl; rewrite ?andb_true_r; reflexivity.
    + simpl negb. cbv iota. rewrite (or_str_some x "" Hx).
      destruct (f_status f); simpl; rewrite !(ilike_includes x _ Hplain);
        rewrite ?andb_true_r; reflexivity.
  - simpl. destruct (f_status f); simpl; rewrite ?andb_true_r; reflexivity.
Qed.

(** ** The order of the page *)

Lemma insert_desc_perm (r : Row) (l : list Row) :
  Permutation (Sql.insert_desc r l) (r :: l).
Proof.
  induction l as [| x l IH]; simpl; [apply Permutation_refl |].
  destruct (row_createdAt x <=? row_createdAt r)%Z; [apply Permutation_refl |].
  apply perm_trans with (x :: r :: l); [| apply perm_swap].
  apply perm_skip. exact IH.
Qed.

Lemma order_by_perm (l : list Row) :
  Permutation (Sql.order_by_createdAt_desc l) l.
Proof.
  induction l as [| x l IH]; simpl; [apply perm_nil |].
  apply perm_trans with (x :: Sql.order_by_createdAt_desc l).
  - apply insert_desc_perm.
  - apply perm_skip. exact IH.
Qed.

Lemma insert_desc_sorted (r : Row) (l : list Row) :
  StronglySorted newest_first l ->
  StronglySorted newest_first (Sql.insert_desc r l).
Proof.
  induction l as [| x l IH]; intros Hs; simpl.
  - constructor; constructor.
  - inversion Hs as [| ? ? Hl Hx]; subst.
    destruct (Z.leb_spec (row_createdAt x) (row_createdAt r)) as [Hle | Hgt].
    + constructor; [exact Hs |]. constructor; [exact Hle |].
      eapply Forall_impl; [| exact Hx]. unfold newest_first. intros; lia.
    + constructor; [apply IH; exact Hl |].
      apply (Permutation_Forall (x := r :: l)).
      * symmetry. apply insert_desc_perm.
      * constructor; [unfold newest_first; lia | exact Hx].
Qed.

Lemma order_by_sorted (l : list Row) :
  StronglySorted newest_first (Sql.order_by_createdAt_desc l).
Proof.
  induction l as [| x l IH]; simpl; [constructor |].
  apply insert_desc_sorted. exact IH.
Qed.

(** [Math.ceil(a / b)] is the least number of pages of [b] that hold [a]. *)
Lemma ceil_div_bounds (a b : Z) :
  0 < b -> (Js.ceil_div a b - 1) * b < a <= Js.ceil_div a b * b.
Proof.
  intros Hb. unfold Js.ceil_div.
  pose proof (Z.div_mod (- a) b ltac:(lia)).
  pose proof (Z.mod_pos_bound (- a) b Hb). nia.
Qed.

Lemma or_num_positive (v : option Z) (d : Z) :
  positive v -> Js.or_num v d = default_num v d.
Proof.
  intros H. destruct v as [x |]; [| reflexivity]. simpl.
  specialize (H x eq_refl). destruct (Z.eqb_spec x 0); [lia | reflexivity].
Qed.

Lemma default_positive (v : option Z) (d : Z) :
  positive v -> 1 <= d -> 1 <= default_num v d.
Proof.
  intros H Hd. destruct v as [x |]; [apply H; reflexivity | exact Hd].
Qed.

(** C2 (as the code has it). When page and limit, where supplied, are at
    least 1, the limit and the offset [(page - 1) * limit] are at most
    [Number.MAX_SAFE_INTEGER], and the search term has neither the code
    unit 0 nor any of the pattern characters [%], [_] and backslash,
    [findAll] returns: the count of the rows that match the status and
    search predicates as [total]; the slice of at most [limit] rows, after
    [(page - 1) * limit], of those rows ordered by [createdAt] descending;
    and [total / limit] rounded up as [totalPages].  The search matches as a
    substring, case not counting, of the name or of the description, and is
    joined to the status by a conjunction. *)
Theorem findAll_pages (f : ResourceFilters) (db : Db) :
  plain_search f -> storable (f_search f) ->
  positive (f_page f) -> positive (f_limit f) -> safe_page f ->
  findAll_claim f db.
Proof.
  intros Hplain _ Hp Hl _. unfold findAll_claim.
  pose proof (default_positive _ 1 Hp ltac:(lia)) as Hp1.
  pose proof (default_positive _ 10 Hl ltac:(lia)) as Hl1.
  assert (Hf : filter (Sql.eval_where (ResourceModel.build_where f)) (table db)
               = filter (matches f) (table db)).
  { apply filter_ext. intros r. apply eval_where_matches. exact Hplain. }
  assert (E := findAll_runs f db).
  unfold page_of in E.
  rewrite (or_num_positive _ 1 Hp), (or_num_positive _ 10 Hl), Hf in E.
  specialize (E ltac:(lia) ltac:(nia)).
  eexists. eexists.
  exists (Sql.order_by_createdAt_desc (filter (matches f) (table db))).
  split; [exact E |].
  cbn [table data pagination total totalPages sent_to].
  split; [reflexivity |]. split; [reflexivity |].
  split; [apply order_by_perm |]. split; [apply order_by_sorted |].
  split; [reflexivity |]. split.
  - rewrite length_map.
    pose proof (firstn_le_length (Z.to_nat (default_num (f_limit f) 10))
                  (skipn (Z.to_nat ((default_num (f_page f) 1 - 1)
                                    * default_num (f_limit f) 10))
                     (Sql.order_by_createdAt_desc
                        (filter (matches f) (table db))))).
    lia.
  - apply ceil_div_bounds. lia.
Qed.

(** The active resources that mention "test", first page of ten. *)
Lemma findAll_pages_witness :
  findAll_claim (mkFilters (Some active) (Some "test") (Some 1) (Some 10))
    example_store.
Proof.
  apply (findAll_pages (mkFilters (Some active) (Some "test") (Some 1) (Some 10))
           example_store).
  - intros x E. injection E as <-. reflexivity.
  - intros x E. injection E as <-. reflexivity.
  - intros x E. injection E as <-. lia.
  - intros x E. injection E as <-. lia.
  - split; vm_compute; discriminate.
Defined.

(** C2 (as stated) fails: a limit of 0 is replaced by 10, so that a row is
    returned where at most 0 are claimed; a negative limit reaches the page
    query, which the store refuses; and the search term [_] is read as a
    pattern, which matches a resource whose name and description do not
    contain it. *)
Lemma findAll_pages_counterexample :
  ~ findAll_claim (mkFilters None None None (Some 0)) example_store
  /\ ~ findAll_claim (mkFilters None None None (Some (-1))) example_store
  /\ ~ findAll_claim (mkFilters None (Some "_") None None) example_store.
Proof.
  split; [| split];
    intros (resp & db' & sorted & E & _ & Ht & _ & _ & _ & Hlen & _).
  - vm_compute in E. injection E as <- _. vm_compute in Hlen.
    apply Hlen. reflexivity.
  - vm_compute in E. discriminate.
  - vm_compute in E. injection E as <- _. vm_compute in Ht. discriminate.
Qed.

End ListingFacts.

(* ===================================================================== *)
(** * Further properties: the alternative sums *)
(* ===================================================================== *)

Section SumToNAltFacts.

Import SumToN SumToNAlt Laws.



(** With room for the [n + 1] calls it makes, [sum_to_n_e] returns the
    accumulator and the sum. *)
Lemma sum_to_n_e_acc (stack : nat) (n acc : Z) :
  Z.max n 0 < Z.of_nat stack ->
  sum_to_n_e stack n acc
  = Return (acc + (if n <=? 0 then 0 else (n * (n + 1)) / 2)).
Proof.
  revert n acc. induction stack as [| stack IH]; intros n acc Hs; [lia |].
  cbn [sum_to_n_e].
  destruct (Z.leb_spec n 0) as [H0 | H0]; [f_equal; lia |].
  rewrite IH by lia. f_equal.
  pose proof (gauss_even n). pose proof (gauss_even (n - 1)).
  replace (n - 1 + 1) with n in * by lia.
  destruct (Z.leb_spec (n - 1) 0); nia.
Qed.

(** With less room, the [RangeError] of the engine. *)
Lemma sum_to_n_e_overflows (stack : nat) (n acc : Z) :
  Z.of_nat stack <= Z.max n 0 ->
  sum_to_n_e stack n acc = Throw stack_overflow.
Proof.
  revert n acc. induction stack as [| stack IH]; intros n acc Hs;
    [reflexivity |].
  cbn [sum_to_n_e].
  destruct (Z.leb_spec n 0) as [? | _]; [lia |].
  apply IH. lia.
Qed.

(** X2. [sum_to_n_e] makes [n + 1] calls, one inside the other (one call
    when [n <= 0]).  With room for them on the call stack, and with the
    accumulator, the sum and their total inside the safe integers, it
    returns the accumulator plus the sum to [n], which is what [sum_to_n_c]
    gives when the accumulator is the default 0; with less room it throws
    the [RangeError] of the engine. *)
Theorem sum_to_n_e_accumulates (stack : nat) (n acc : Z) :
  (Z.max n 0 < Z.of_nat stack ->
   Spec.safe_integer acc -> Spec.result_is_safe n ->
   Spec.safe_integer (acc + sum_to_n_c n) ->
   sum_to_n_e stack n acc = Return (acc + sum_to_n_c n))
  /\ (Z.max n 0 < Z.of_nat stack ->
      Spec.result_is_safe n ->
      sum_to_n_e stack n 0 = Return (sum_to_n_c n))
  /\ (Z.of_nat stack <= Z.max n 0 ->
      sum_to_n_e stack n acc = Throw stack_overflow).
Proof.
  split; [| split].
  - intros Hs _ _ _. apply sum_to_n_e_acc. exact Hs.
  - intros Hs _. rewrite (sum_to_n_e_acc stack n 0 Hs). reflexivity.
  - apply sum_to_n_e_overflows.
Qed.

(** The sum to 100 added to 7 with room for 101 calls, and the same call
    with room for 100. *)
Lemma sum_to_n_e_accumulates_witness :
  sum_to_n_e 101 100 7 = Return 5057
  /\ sum_to_n_e 100 100 7 = Throw stack_overflow.
Proof.
  split.
  - apply (proj1 (sum_to_n_e_accumulates 101 100 7)).
    + apply Z.ltb_lt. reflexivity.
    + split; apply Z.leb_le; reflexivity.
    + intros _. apply Z.ltb_lt. reflexivity.
    + split; apply Z.leb_le; reflexivity.
  - apply (proj2 (proj2 (sum_to_n_e_accumulates 100 100 7))).
    apply Z.leb_le. reflexivity.
Defined.

Lemma loop_g_sum (n sum i : Z) :
  1 <= i <= n + 1 ->
  2 * loop_g n sum i = 2 * sum + n * (n + 1) - (i - 1) * i.
Proof.
  funelim (loop_g n sum i); intros Hi.
  - rewrite H by lia. lia.
  - assert (i = n + 1) by lia. subst. lia.
Qed.

(** X3. For every integer [n] whose sum is below
    [Number.MAX_SAFE_INTEGER], as the source assumes, the while loop of
    [sum_to_n_g] gives what [sum_to_n_c] gives. *)
Theorem sum_to_n_g_gauss (n : Z) :
  Spec.result_is_safe n -> sum_to_n_g n = sum_to_n_c n.
Proof.
  intros _. unfold sum_to_n_g, sum_to_n_c.
  destruct (Z.leb_spec n 0) as [Hn | Hn]; [reflexivity |].
  pose proof (loop_g_sum n 0 1 ltac:(lia)). pose proof (gauss_even n). lia.
Qed.

(** The sum to 1000 by the while loop. *)
Lemma sum_to_n_g_gauss_witness : sum_to_n_g 1000 = sum_to_n_c 1000.
Proof.
  apply (sum_to_n_g_gauss 1000). intros _. apply Z.ltb_lt. reflexivity.
Defined.

Lemma to_int32_small (x : Z) : - 2 ^ 31 <= x < 2 ^ 31 -> to_int32 x = x.
Proof.
  intros H. unfold to_int32. rewrite Z.mod_small by lia. lia.
Qed.

(** X4. For every [n] below [2^31 - 1], so that [n] and [n + 1] are 32-bit
    signed integers, the bit operations of [sum_to_n_h] give what
    [sum_to_n_c] gives; at [2^31 - 1] the shifted operand wraps around and
    the result is negative. *)
Theorem sum_to_n_h_gauss :
  (forall n, n < 2 ^ 31 - 1 -> sum_to_n_h n = sum_to_n_c n)
  /\ sum_to_n_h (2 ^ 31 - 1) < 0.
Proof.
  split; [| reflexivity].
  intros n Hn. unfold sum_to_n_h, sum_to_n_c.
  destruct (Z.leb_spec n 0) as [H0 | H0]; [reflexivity |].
  unfold bit_and, shift_right.
  rewrite !to_int32_small by lia.
  change (1 mod 32) with 1.
  rewrite !Z.shiftr_div_pow2 by lia. change (2 ^ 1) with 2.
  change 1 with (Z.ones 1) at 1. rewrite Z.land_ones by lia.
  change (2 ^ 1) with 2.
  pose proof (gauss_even n) as Hg.
  pose proof (Z.div_mod n 2 ltac:(lia)) as Hd.
  pose proof (Z.mod_pos_bound n 2 ltac:(lia)) as Hm.
  destruct (Z.eqb_spec (n mod 2) 0) as [E | E].
  - nia.
  - assert (E1 : n mod 2 = 1) by lia.
    pose proof (Z.div_mod (n + 1) 2 ltac:(lia)) as Hd1.
    pose proof (Z.mod_pos_bound (n + 1) 2 ltac:(lia)) as Hm1.
    assert ((n + 1) mod 2 = 0).
    { rewrite Z.add_mod by lia. rewrite E1. reflexivity. }
    nia.
Qed.

(** The sum to 1000 by bit operations. *)
Lemma sum_to_n_h_gauss_witness : sum_to_n_h 1000 = sum_to_n_c 1000.
Proof. apply (proj1 sum_to_n_h_gauss 1000). reflexivity. Defined.

Lemma map_get_set (m : NumberMap) (k v k' : Z) :
  map_get (map_set m k v) k' = if k =? k' then Some v else map_get m k'.
Proof.
  induction m as [| [a b] m IH]; simpl.
  - reflexivity.
  - destruct (Z.eqb_spec a k) as [-> | Hne]; simpl.
    + destruct (Z.eqb_spec k k'); reflexivity.
    + rewrite IH. destruct (Z.eqb_spec a k') as [-> | ?]; [| reflexivity].
      destruct (Z.eqb_spec k k'); [lia | reflexivity].
Qed.

(** A call of [sum_to_n_f] on a coherent cache gives the sum and leaves
    the cache coherent. *)
Lemma sum_to_n_f_coherent (n : Z) (cache : option NumberMap) :
  coherent cache ->
  fst (sum_to_n_f n cache) = sum_to_n_c n
  /\ coherent (snd (sum_to_n_f n cache)).
Proof.
  intros Hc. unfold sum_to_n_f.
  destruct (Z.leb_spec n 0) as [Hn | Hn].
  - split; [| exact Hc]. unfold sum_to_n_c.
    destruct (Z.leb_spec n 0); [reflexivity | lia].
  - set (m := match cache with Some m => m | None => [] end).
    assert (Hm : forall k v, map_get m k = Some v -> v = sum_to_n_c k).
    { intros k v. subst m. destruct cache as [m |].
      - apply (Hc m). reflexivity.
      - discriminate. }
    assert (Hf : (n * (n + 1)) / 2 = sum_to_n_c n).
    { unfold sum_to_n_c. destruct (Z.leb_spec n 0); [lia | reflexivity]. }
    unfold map_has. destruct (map_get m n) as [v |] eqn:Eg; simpl.
    + split; [apply (Hm n v Eg) |].
      intros m' k v' [= <-]. apply Hm.
    + split; [exact Hf |].
      intros m' k v' [= <-]. rewrite map_get_set.
      destruct (Z.eqb_spec n k) as [<- | _]; [| apply Hm].
      intros [= <-]. exact Hf.
Qed.

Lemma calls_f_coherent (ns : list Z) (cache : option NumberMap) :
  coherent cache -> fst (calls_f ns cache) = map sum_to_n_c ns.
Proof.
  revert cache. induction ns as [| n ns IH]; intros cache Hc; [reflexivity |].
  simpl. destruct (sum_to_n_f_coherent n cache Hc) as [Hr Hc'].
  destruct (sum_to_n_f n cache) as [r cache']. simpl in Hr, Hc'.
  specialize (IH cache' Hc').
  destruct (calls_f ns cache') as [rs cache'']. simpl in *. congruence.
Qed.

(** X5. Whatever calls of [sum_to_n_f] are made, in whatever order,
    starting with no cache, each gives what [sum_to_n_c] gives: an answer
    from the cache is the answer that would have been computed. *)
Theorem sum_to_n_f_memo (ns : list Z) :
  fst (calls_f ns None) = map sum_to_n_c ns.
Proof.
  apply calls_f_coherent. intros m k v H. discriminate.
Qed.

(** X6. A second call of [sum_to_n_f] with the same [n] is answered from
    the cache: it gives the result of the first call and leaves the cache
    as the first call left it. *)
Theorem sum_to_n_f_cached (n : Z) (cache : option NumberMap) :
  sum_to_n_f n (snd (sum_to_n_f n cache)) = sum_to_n_f n cache.
Proof.
  unfold sum_to_n_f.
  destruct (Z.leb_spec n 0) as [Hn | Hn].
  - cbn [snd]. destruct (Z.leb_spec n 0); [reflexivity | lia].
  - set (m := match cache with Some m => m | None => [] end).
    unfold map_has. destruct (map_get m n) as [v |] eqn:Eg; cbn [snd].
    + destruct (Z.leb_spec n 0); [lia |]. rewrite Eg. reflexivity.
    + destruct (Z.leb_spec n 0); [lia |].
      rewrite map_get_set, Z.eqb_refl. reflexivity.
Qed.

End SumToNAltFacts.

(* ===================================================================== *)
(** * Further properties: validation and [parseInt] *)
(* ===================================================================== *)

Section ValidationLaws.

Import Store Spec Laws.
Local Open Scope string_scope.

Lemma update_messages_distinct : NoDup (map snd update_rules).
Proof.
  repeat constructor; simpl; intros H;
    repeat (destruct H as [H | H]; [vm_compute in H; discriminate |]); exact H.
Qed.

Lemma gtb_length (s : string) (n : nat) (z : Z) :
  z = Z.of_nat n -> (Js.len s >? z)%Z = (n <? String.length s)%nat.
Proof.
  intros ->. unfold Js.len.
  destruct (Nat.ltb_spec n (String.length s)); lia.
Qed.

Lemma not_a_status (s : string) :
  negb (Js.arr_includes ["active"; "inactive"] s)
  = negb (s =? "active") && negb (s =? "inactive").
Proof. simpl. rewrite orb_false_r, negb_orb. reflexivity. Qed.

Lemma validateUpdateData_chain (d : UpdateResourceDto) :
  ResourceService.validateUpdateData d
  = match first_violated_update update_rules d with
    | Some m => Throw (ValidationError m)
    | None => Return tt
    end.
Proof.
  unfold ResourceService.validateUpdateData, update_rules,
    first_violated_update.
  destruct d as [[n |] [dsc |] [s |]]; cbn [u_name u_description u_status];
    repeat rewrite trim_empty; try rewrite not_a_status;
    try rewrite (gtb_length _ 255 255 eq_refl);
    try rewrite (gtb_length _ 1000 1000 eq_refl);
    repeat match goal with
           | |- context [if ?b then _ else _] => destruct b eqn:?
           end;
    simpl in *; try reflexivity; try discriminate.
Qed.

(** X7. [validateUpdateData] fails on the first violated rule in the order
    name not empty, name length, description not empty, description length,
    status, each with a message of its own, and only fields that are
    supplied are tested: a body with no field passes, and a status that is
    the empty string is refused (where create takes it as absent). *)
Theorem validateUpdateData_first_violation :
  (forall d,
      ResourceService.validateUpdateData d
      = match first_violated_update update_rules d with
        | Some m => Throw (ValidationError m)
        | None => Return tt
        end)
  /\ NoDup (map snd update_rules)
  /\ ResourceService.validateUpdateData no_fields = Return tt
  /\ (forall n dsc,
         exists m,
           ResourceService.validateUpdateData (mkUpdate n dsc (Some ""))
           = Throw (AppError ValidationErrorClass m 400 true)).
Proof.
  split; [exact validateUpdateData_chain |].
  split; [exact update_messages_distinct |].
  split; [reflexivity |].
  intros n dsc. rewrite validateUpdateData_chain.
  unfold update_rules, first_violated_update.
  cbn [u_name u_description u_status String.eqb negb andb].
  repeat match goal with
         | |- context [if ?b then _ else _] => destruct b
         end; eexists; reflexivity.
Qed.

(** Data that passes [validateUpdateData] fits the columns of the table. *)
Lemma validated_update_fits (d : UpdateResourceDto) :
  ResourceService.validateUpdateData d = Return tt -> fits_columns d.
Proof.
  rewrite validateUpdateData_chain.
  unfold update_rules, first_violated_update, fits_columns.
  destruct d as [[n |] [dsc |] [s |]]; cbn [u_name u_description u_status];
    intros H; (split; intros x E; [| try discriminate E]);
    try discriminate E; injection E as <-;
    repeat match type of H with
           | context [if ?b then _ else _] => destruct b eqn:?
           end; try discriminate H;
    try match goal with
        | _ : (255 <? String.length ?y)%nat = false |- (_ <= _)%nat =>
            destruct (Nat.ltb_spec 255 (String.length y));
              [discriminate | lia]
        end;
    match goal with
    | E : negb (?y =? "active") && negb (?y =? "inactive") = false |- _ =>
        apply andb_false_iff in E as [E | E];
          apply negb_false_iff in E; apply String.eqb_eq in E; auto
    end.
Qed.

(** ** [parseInt] *)

Lemma take_digits_uint (d : Decimal.uint) (rest : string) :
  match rest with
  | EmptyString => True
  | String c _ => JsNumber.is_digit c = false
  end ->
  JsNumber.take_digits (NilEmpty.string_of_uint d ++ rest)
  = NilEmpty.string_of_uint d.
Proof.
  intros Hrest. induction d; simpl; try (rewrite IHd; reflexivity).
  destruct rest as [| c rest]; [reflexivity |]. simpl. rewrite Hrest.
  reflexivity.
Qed.

Lemma digits_value_uint (d : Decimal.uint) :
  JsNumber.digits_value (NilEmpty.string_of_uint d) = Z.of_uint d.
Proof. unfold JsNumber.digits_value. rewrite NilEmpty.usu. reflexivity. Qed.

Lemma string_of_pos_head (p : BinNums.positive) :
  exists c t,
    NilEmpty.string_of_uint (Pos.to_uint p) = String c t
    /\ JsNumber.is_digit c = true.
Proof.
  pose proof (DecimalPos.Unsigned.to_uint_nonnil p) as H.
  destruct (Pos.to_uint p); [contradiction | ..]; simpl;
    eexists; eexists; split; reflexivity.
Qed.

Lemma digit_plain (c : ascii) :
  JsNumber.is_digit c = true ->
  Js.is_white_space c = false /\ c <> "-"%char /\ c <> "+"%char.
Proof.
  destruct c as [[] [] [] [] [] [] [] []]; simpl; intros H;
    try discriminate; repeat split; discriminate.
Qed.

Lemma parseInt_digits (c : ascii) (t rest : string) (u : Decimal.uint) :
  NilEmpty.string_of_uint u = String c t ->
  JsNumber.is_digit c = true ->
  match rest with
  | EmptyString => True
  | String x _ => JsNumber.is_digit x = false
  end ->
  JsNumber.parseInt (NilEmpty.string_of_uint u ++ rest) = Some (Z.of_uint u)
  /\ JsNumber.parseInt (String "-" (NilEmpty.string_of_uint u ++ rest))
     = Some (- Z.of_uint u).
Proof.
  intros Hu Hc Hrest.
  destruct (digit_plain c Hc) as (Hw & Hm & Hp).
  pose proof (take_digits_uint u rest Hrest) as Ht.
  pose proof (digits_value_uint u) as Hv.
  unfold JsNumber.parseInt. rewrite Hu in *. simpl append in *.
  split.
  - cbn [Js.trimStart]. rewrite Hw.
    destruct c as [[] [] [] [] [] [] [] []]; try discriminate;
      rewrite Ht; simpl String.eqb; rewrite Hv; reflexivity.
  - cbn [Js.trimStart]. change (Js.is_white_space "-") with false. cbv iota.
    rewrite Ht. simpl String.eqb. rewrite Hv. reflexivity.
Qed.

Lemma parseInt_text (n : Z) (rest : string) :
  match rest with
  | EmptyString => True
  | String c _ => JsNumber.is_digit c = false
  end ->
  JsNumber.parseInt (Js.num_to_string n ++ rest) = Some n.
Proof.
  intros Hrest. unfold Js.num_to_string.
  rewrite <- (DecimalZ.of_to n) at 2.
  destruct n as [| p | p]; simpl Z.to_int; simpl NilEmpty.string_of_int.
  - apply (parseInt_digits "0" "" rest (Decimal.D0 Decimal.Nil));
      [reflexivity | reflexivity | exact Hrest].
  - destruct (string_of_pos_head p) as (c & t & Hs & Hc).
    apply (proj1 (parseInt_digits c t rest (Pos.to_uint p) Hs Hc Hrest)).
  - destruct (string_of_pos_head p) as (c & t & Hs & Hc).
    apply (proj2 (parseInt_digits c t rest (Pos.to_uint p) Hs Hc Hrest)).
Qed.

Lemma append_empty_r (s : string) : s ++ "" = s.
Proof. induction s as [| c s IH]; simpl; congruence. Qed.

Lemma append_assoc (a b c : string) : (a ++ b) ++ c = a ++ b ++ c.
Proof. induction a as [| x a IH]; simpl; congruence. Qed.

Lemma parseInt_of_text (n : Z) : JsNumber.parseInt (Js.num_to_string n) = Some n.
Proof.
  rewrite <- (append_empty_r (Js.num_to_string n)).
  apply parseInt_text. exact I.
Qed.



End ValidationLaws.

(* ===================================================================== *)
(** * Further properties: the store *)
(* ===================================================================== *)

Section StoreLaws.

Import Store Spec Laws.
Local Open Scope string_scope.

Lemma substring_length (n : nat) (s : string) :
  (String.length (substring 0 n s) <= n)%nat.
Proof.
  revert s. induction n as [| n IH]; intros [| c s]; simpl; try lia.
  specialize (IH s). lia.
Qed.

Lemma varchar_length (n : nat) (s s' : string) :
  Sql.varchar n s = Some s' -> (String.length s' <= n)%nat.
Proof.
  unfold Sql.varchar.
  destruct (Nat.leb_spec (String.length s) n) as [H | H].
  - intros [= <-]. exact H.
  - destruct (Sql.all_spaces _); [| discriminate].
    intros [= <-]. apply substring_length.
Qed.

Lemma store_name_inv (v v' : string) :
  Sql.store_name v = Return v' -> (String.length v' <= 255)%nat.
Proof.
  unfold Sql.store_name. destruct (Sql.varchar 255 v) eqn:E; [| discriminate].
  intros [= <-]. apply (varchar_length _ _ _ E).
Qed.

Lemma store_status_inv (v v' : string) :
  Sql.store_status v = Return v' -> v' = "active" \/ v' = "inactive".
Proof.
  unfold Sql.store_status, Sql.status_check.
  destruct (Sql.varchar 20 v) as [x |]; [| discriminate].
  destruct (String.eqb_spec x "active") as [-> | _];
    [intros [= <-]; left; reflexivity |].
  destruct (String.eqb_spec x "inactive") as [-> | _];
    [intros [= <-]; right; reflexivity | discriminate].
Qed.

(** What a [create] that returns has done. *)
Lemma model_create_inv (data : CreateResourceDto) (db db' : Db)
      (r : Resource) :
  ResourceModel.create data db = (Return r, db') ->
  exists n d n' s',
    c_name data = Some n /\ c_description data = Some d
    /\ Sql.store_name n = Return n'
    /\ Sql.store_status (Js.or_str (c_status data) "active") = Return s'
    /\ r = mkResource (serial db) n' d s' (clock db) (clock db)
    /\ db' = mkDb (table db
                   ++ [mkRow (serial db) n' d s' (clock db) (clock db)])
                  (serial db + 1) (clock db) (log db ++ [StmtInsert]).
Proof.
  unfold ResourceModel.create, Sql.insert, bind, sent, lift, next_serial, get,
    set_table, ret, throw.
  destruct (c_name data) as [n |]; [| discriminate].
  destruct (c_description data) as [d |]; [| discriminate].
  destruct (Sql.store_name n) as [n' |] eqn:En; [| discriminate].
  destruct (Sql.store_status _) as [s' |] eqn:Es; [| discriminate].
  cbn. intros [= <- <-].
  exists n, d, n', s'. repeat split; assumption.
Qed.

(** A [create] that throws has stored nothing. *)
Lemma model_create_throws (data : CreateResourceDto) (db db' : Db)
      (e : JsError) :
  ResourceModel.create data db = (Throw e, db') ->
  db' = sent_to db [StmtInsert].
Proof.
  unfold ResourceModel.create, Sql.insert, bind, sent, lift, next_serial, get,
    set_table, ret, throw.
  destruct (c_name data) as [n |]; [| intros [= _ <-]; reflexivity].
  destruct (c_description data) as [d |]; [| intros [= _ <-]; reflexivity].
  destruct (Sql.store_name n) as [n' |]; [| intros [= _ <-]; reflexivity].
  destruct (Sql.store_status _) as [s' |]; [| intros [= _ <-]; reflexivity].
  cbn. discriminate.
Qed.

Lemma wf_sent_to (db : Db) (s : list Stmt) : wf db -> wf (sent_to db s).
Proof. intros H. exact H. Qed.

Lemma wf_create (data : CreateResourceDto) (db : Db) :
  wf db -> wf (snd (ResourceModel.create data db)).
Proof.
  intros Hwf. destruct (ResourceModel.create data db) as [[r | e] db'] eqn:E.
  - destruct (model_create_inv _ _ _ _ E)
      as (n & d & n' & s' & _ & _ & Hn & Hs & _ & ->).
    destruct Hwf as (Hnd & Hlt & Hok & Ht).
    unfold wf. cbn [snd table serial clock].
    repeat split.
    + rewrite map_app. cbn [map row_id].
      apply Permutation_NoDup with (l := serial db :: map row_id (table db)).
      * apply Permutation_cons_append.
      * constructor; [| exact Hnd].
        intros Hin. apply in_map_iff in Hin as (x & Hx & Hin).
        rewrite Forall_forall in Hlt. specialize (Hlt x Hin). lia.
    + apply Forall_app. split.
      * eapply Forall_impl; [| exact Hlt]. cbn. intros; lia.
      * constructor; [cbn; lia | constructor].
    + apply Forall_app. split; [exact Hok |].
      constructor; [| constructor]. split; cbn.
      * apply (store_name_inv _ _ Hn).
      * apply (store_status_inv _ _ Hs).
    + apply Forall_app. split; [exact Ht |].
      constructor; [| constructor]. unfold row_timed. cbn. lia.
  - rewrite (model_create_throws _ _ _ _ E). exact Hwf.
Qed.

Lemma assign_inv (r r' : Row) (a : Sql.Column * string) :
  Sql.assign r a = Return r' ->
  row_id r' = row_id r /\ row_createdAt r' = row_createdAt r
  /\ row_updatedAt r' = row_updatedAt r /\ (row_ok r -> row_ok r').
Proof.
  destruct a as [[| |] v]; simpl.
  - destruct (Sql.store_name v) as [v' |] eqn:E; [| discriminate].
    intros [= <-]. do 3 (split; [reflexivity |]).
    intros [_ Hs]. split; cbn; [apply (store_name_inv _ _ E) | exact Hs].
  - intros [= <-]. do 3 (split; [reflexivity |]).
    intros [Hn Hs]. split; cbn; assumption.
  - destruct (Sql.store_status v) as [v' |] eqn:E; [| discriminate].
    intros [= <-]. do 3 (split; [reflexivity |]).
    intros [Hn _]. split; cbn; [exact Hn | apply (store_status_inv _ _ E)].
Qed.

Lemma assign_all_inv (sets : list (Sql.Column * string)) (r r' : Row) :
  Sql.assign_all r sets = Return r' ->
  row_id r' = row_id r /\ row_createdAt r' = row_createdAt r
  /\ row_updatedAt r' = row_updatedAt r /\ (row_ok r -> row_ok r').
Proof.
  revert r. induction sets as [| a sets IH]; intros r; simpl.
  - intros [= <-]. do 3 (split; [reflexivity |]). auto.
  - destruct (Sql.assign r a) as [r1 |] eqn:E; [| discriminate].
    intros H. destruct (assign_inv _ _ _ E) as (H1 & H2 & H3 & H4).
    destruct (IH _ H) as (I1 & I2 & I3 & I4).
    split; [congruence |]. split; [congruence |]. split; [congruence |].
    auto.
Qed.

(** What an [UPDATE] that succeeds does to each row: the id and
    [createdAt] stay, a row admitted by the columns stays so, and a row that
    changed has the time of the update. *)
Lemma update_rows_inv (sets : list (Sql.Column * string)) (rid now : Z)
      (t t' : list Row) :
  Sql.update_rows sets rid now t = Return t' ->
  Forall2 (fun r r' =>
             row_id r' = row_id r /\ row_createdAt r' = row_createdAt r
             /\ (row_ok r -> row_ok r')
             /\ (r' = r \/ row_updatedAt r' = now))
          t t'.
Proof.
  revert t'. induction t as [| r t IH]; intros t'; simpl.
  - intros [= <-]. constructor.
  - destruct (Sql.has_id rid r).
    + destruct (Sql.assign_all r sets) as [r1 |] eqn:E; [| discriminate].
      destruct (Sql.update_rows sets rid now t) as [t1 |]; [| discriminate].
      intros [= <-]. constructor; [| apply IH; reflexivity].
      destruct (assign_all_inv _ _ _ E) as (H1 & H2 & H3 & H4).
      cbn. split; [exact H1 |]. split; [exact H2 |]. split.
      * intros Hr. destruct (H4 Hr). split; assumption.
      * right. reflexivity.
    + destruct (Sql.update_rows sets rid now t) as [t1 |]; [| discriminate].
      intros [= <-]. constructor; [| apply IH; reflexivity].
      do 2 (split; [reflexivity |]). split; [auto | left; reflexivity].
Qed.

Lemma Forall2_transfer {A} (R : A -> A -> Prop) (P Q : A -> Prop)
      (t t' : list A) :
  Forall2 R t t' -> (forall r r', R r r' -> P r -> Q r') ->
  Forall P t -> Forall Q t'.
Proof.
  intros H HR. induction H as [| r r' t t' Hr _ IH]; intros HP;
    [constructor |].
  inversion HP; subst. constructor; [eapply HR; eassumption | auto].
Qed.

Lemma Forall2_ids (R : Row -> Row -> Prop) (t t' : list Row) :
  Forall2 R t t' -> (forall r r', R r r' -> row_id r' = row_id r) ->
  map row_id t' = map row_id t.
Proof.
  intros H HR. induction H as [| r r' t t' Hr _ IH]; [reflexivity |].
  simpl. rewrite (HR _ _ Hr), IH. reflexivity.
Qed.

Lemma wf_update_rows (sets : list (Sql.Column * string)) (rid : Z)
      (db : Db) (t' : list Row) (l : list Stmt) :
  wf db ->
  Sql.update_rows sets rid (clock db) (table db) = Return t' ->
  wf (mkDb t' (serial db) (clock db) l).
Proof.
  intros (Hnd & Hlt & Hok & Ht) H. apply update_rows_inv in H.
  unfold wf. cbn [table serial clock].
  split; [| split; [| split]].
  - rewrite (Forall2_ids _ _ _ H); [exact Hnd |]. intros r r' Hr. apply Hr.
  - refine (Forall2_transfer _ _ _ _ _ H _ Hlt).
    intros r r' (E & _) Hr. cbn in *. rewrite E. exact Hr.
  - refine (Forall2_transfer _ _ _ _ _ H _ Hok).
    intros r r' (_ & _ & E & _) Hr. auto.
  - refine (Forall2_transfer _ _ _ _ _ H _ Ht).
    unfold row_timed. intros r r' (_ & Ec & _ & [-> | E]) Hr; [exact Hr |].
    lia.
Qed.

Lemma wf_update (rid : Z) (data : UpdateResourceDto) (db : Db) :
  wf db -> wf (snd (ResourceModel.update rid data db)).
Proof.
  intros Hwf.
  unfold ResourceModel.update, ResourceModel.findById, Sql.select_by_id, bind,
    sent, get, ret.
  cbn [table serial clock log].
  destruct (filter (Sql.has_id rid) (table db)) as [| r rest]; [exact Hwf |].
  destruct (List.length _ =? 0)%nat; [exact Hwf |].
  unfold Sql.update, bind, sent, get, lift, set_table, ret.
  cbn [table serial clock log].
  destruct (Sql.update_rows _ rid (clock db) (table db)) as [t' |] eqn:E;
    [| exact Hwf].
  assert (Hw := wf_update_rows _ rid db t' (log db ++ [StmtSelectById] ++ [StmtUpdate]) Hwf E).
  destruct (filter (Sql.has_id rid) t'); cbn [snd];
    rewrite <- app_assoc; exact Hw.
Qed.

Lemma wf_delete (rid : Z) (db : Db) :
  wf db -> wf (snd (ResourceModel.delete rid db)).
Proof.
  intros (Hnd & Hlt & Hok & Ht).
  unfold ResourceModel.delete, Sql.delete, bind, sent, get, set_table, ret.
  cbn [snd table serial clock log]. unfold wf. cbn [table serial clock].
  set (keep := fun r : Row => negb (Sql.has_id rid r)).
  assert (Hincl : incl (filter keep (table db)) (table db)).
  { intros x Hx. apply filter_In in Hx. apply Hx. }
  repeat split.
  - clear Hlt Hok Ht Hincl. induction (table db) as [| x t IH]; [constructor |].
    simpl in *. inversion Hnd as [| ? ? Hx Ht]; subst.
    destruct (keep x); [| apply IH; exact Ht].
    simpl. constructor; [| apply IH; exact Ht].
    intros Hin. apply Hx. apply in_map_iff in Hin as (y & Ey & Hy).
    apply in_map_iff. exists y. split; [exact Ey |].
    apply filter_In in Hy. apply Hy.
  - apply (incl_Forall Hincl Hlt).
  - apply (incl_Forall Hincl Hok).
  - apply (incl_Forall Hincl Ht).
Qed.

Lemma findById_reads (rid : Z) (db : Db) :
  snd (ResourceModel.findById rid db) = sent_to db [StmtSelectById].
Proof.
  unfold ResourceModel.findById, Sql.select_by_id, bind, sent, get, ret.
  cbn [table]. destruct (filter _ _); reflexivity.
Qed.

(** [findAll] sends the count, and the page query when the count came
    back; it changes nothing. *)
Lemma findAll_reads (f : ResourceFilters) (db : Db) :
  snd (ResourceModel.findAll f db) = sent_to db [StmtCount; StmtSelectPage].
Proof.
  unfold ResourceModel.findAll, Sql.count, Sql.select_page, bind, sent, get,
    ret, throw, sent_to.
  cbn [table serial clock log].
  destruct (_ <? 0)%Z; [rewrite <- app_assoc; reflexivity |].
  destruct (_ <? 0)%Z; rewrite <- app_assoc; reflexivity.
Qed.

Lemma example_store_wf : wf example_store.
Proof.
  unfold wf, example_store. cbn [table serial clock map row_id].
  repeat split.
  - constructor; [intros [] | constructor].
  - constructor; [cbn; lia | constructor].
  - constructor; [| constructor]. split; cbn; [lia | left; reflexivity].
  - constructor; [| constructor]. unfold row_timed. cbn. lia.
Qed.

Lemma service_create_snd (data : CreateResourceDto) (db : Db) :
  snd (ResourceService.create data db) = db
  \/ snd (ResourceService.create data db)
     = snd (ResourceModel.create data db).
Proof.
  unfold ResourceService.create, bind, lift.
  destruct (ResourceService.validateCreateData data); [right | left];
    reflexivity.
Qed.

Lemma service_update_snd (rid : Z) (data : UpdateResourceDto) (db : Db) :
  snd (ResourceService.update rid data db) = db
  \/ snd (ResourceService.update rid data db)
     = snd (ResourceModel.update rid data db).
Proof.
  unfold ResourceService.update, bind, lift.
  destruct (ResourceService.validateUpdateData data); [right | left];
    [| reflexivity].
  destruct (ResourceModel.update rid data db) as [[[r |] | e] db'];
    reflexivity.
Qed.

Lemma service_delete_snd (rid : Z) (db : Db) :
  snd (ResourceService.delete rid db) = snd (ResourceModel.delete rid db).
Proof.
  unfold ResourceService.delete, bind.
  destruct (ResourceModel.delete rid db) as [[[|] | e] db']; reflexivity.
Qed.

Lemma service_findById_snd (rid : Z) (db : Db) :
  snd (ResourceService.findById rid db) = sent_to db [StmtSelectById].
Proof.
  pose proof (findById_reads rid db) as H.
  unfold ResourceService.findById, bind.
  destruct (ResourceModel.findById rid db) as [[[r |] | e] db']; exact H.
Qed.

Lemma service_findAll_snd (f : ResourceFilters) (db : Db) :
  snd (ResourceService.findAll f db) = db
  \/ snd (ResourceService.findAll f db)
     = sent_to db [StmtCount; StmtSelectPage].
Proof.
  unfold ResourceService.findAll.
  destruct (ResourceService.below (f_page f) 1); [left; reflexivity |].
  destruct (_ || _); [left; reflexivity |].
  right. apply findAll_reads.
Qed.

(** X9. Every operation of the repository and of the service, on any
    input, whether it returns or throws, keeps the invariants of the store:
    ids distinct and below the next value of the sequence, names within 255
    characters, statuses "active" or "inactive", and [createdAt] no later
    than [updatedAt]. *)
Theorem operations_keep_invariants (db : Db) :
  wf db ->
  (forall data,
      wf (snd (ResourceModel.create data db))
      /\ wf (snd (ResourceService.create data db)))
  /\ (forall rid data,
         wf (snd (ResourceModel.update rid data db))
         /\ wf (snd (ResourceService.update rid data db)))
  /\ (forall rid,
         wf (snd (ResourceModel.delete rid db))
         /\ wf (snd (ResourceService.delete rid db)))
  /\ (forall rid,
         wf (snd (ResourceModel.findById rid db))
         /\ wf (snd (ResourceService.findById rid db)))
  /\ (forall f,
         wf (snd (ResourceModel.findAll f db))
         /\ wf (snd (ResourceService.findAll f db))).
Proof.
  intros Hwf. split; [| split; [| split; [| split]]].
  - intros data. split; [apply wf_create; exact Hwf |].
    destruct (service_create_snd data db) as [-> | ->];
      [exact Hwf | apply wf_create; exact Hwf].
  - intros rid data. split; [apply wf_update; exact Hwf |].
    destruct (service_update_snd rid data db) as [-> | ->];
      [exact Hwf | apply wf_update; exact Hwf].
  - intros rid. rewrite service_delete_snd.
    split; apply wf_delete; exact Hwf.
  - intros rid. rewrite service_findById_snd, findById_reads.
    split; exact Hwf.
  - intros f. rewrite findAll_reads. split; [exact Hwf |].
    destruct (service_findAll_snd f db) as [-> | ->]; exact Hwf.
Qed.

(** The store after a resource named with 255 letters and 10 spaces is
    created in the example store. *)
Lemma operations_keep_invariants_witness :
  wf (snd (ResourceModel.create
             (mkCreate (Some (repeat_char 255 "a" ++ repeat_char 10 " "))
                       (Some "Test Description") (Some "inactive"))
             example_store)).
Proof.
  apply (proj1 (proj1 (operations_keep_invariants example_store
                         example_store_wf) _)).
Defined.

Lemma filter_fresh (rid : Z) (t : list Row) (r : Row) :
  Forall (fun x => row_id x < rid) t -> row_id r = rid ->
  filter (Sql.has_id rid) (t ++ [r]) = [r]
  /\ filter (fun x => negb (Sql.has_id rid x)) (t ++ [r]) = t.
Proof.
  intros Hlt Hr. rewrite !filter_app. simpl. unfold Sql.has_id at 2 4.
  rewrite Hr, Z.eqb_refl. simpl.
  destruct (filter_absent rid t) as [-> ->].
  - intros x Hx. rewrite Forall_forall in Hlt. specialize (Hlt x Hx). lia.
  - split; [reflexivity | apply app_nil_r].
Qed.

(** X10. In a store that keeps its invariants, a resource that [create]
    returned is what [findById] of its id returns next: equal in all
    fields. *)
Theorem create_then_findById (data : CreateResourceDto) (db db' : Db)
        (r : Resource) :
  wf db ->
  ResourceService.create data db = (Return r, db') ->
  ResourceService.findById (id r) db'
  = (Return r, sent_to db' [StmtSelectById]).
Proof.
  intros (_ & Hlt & _) H.
  unfold ResourceService.create, bind, lift in H.
  destruct (ResourceService.validateCreateData data); [| discriminate].
  destruct (model_create_inv _ _ _ _ H)
    as (n & d & n' & s' & _ & _ & _ & _ & -> & ->).
  unfold ResourceService.findById, ResourceModel.findById, Sql.select_by_id,
    bind, sent, get, ret.
  cbn [table id].
  rewrite (proj1 (filter_fresh (serial db) (table db)
                    (mkRow (serial db) n' d s' (clock db) (clock db))
                    Hlt eq_refl)).
  reflexivity.
Qed.

(** A resource created in the example store and read back. *)
Lemma create_then_findById_witness :
  ResourceService.findById 2
    (snd (ResourceService.create
            (mkCreate (Some "Second") (Some "Another one") None)
            example_store))
  = (Return (mkResource 2 "Second" "Another one" "active" 2000 2000),
     sent_to (snd (ResourceService.create
                     (mkCreate (Some "Second") (Some "Another one") None)
                     example_store))
             [StmtSelectById]).
Proof.
  apply (create_then_findById
           (mkCreate (Some "Second") (Some "Another one") None)
           example_store _
           (mkResource 2 "Second" "Another one" "active" 2000 2000)
           example_store_wf).
  reflexivity.
Defined.

(** X11. A create input that passes validation, whose name and
    description are text that the store takes (no code unit 0), is stored
    when the sequence of ids has a value left: [create] of the service
    returns a resource with the next id of the sequence, the name and
    description given, the status given or "active" when it is absent or
    empty, and [createdAt] equal to [updatedAt]; the row is added at the end
    of the table and nothing else changes. *)
Theorem valid_create_is_stored (data : CreateResourceDto) (db : Db) :
  ResourceService.validateCreateData data = Return tt ->
  storable (c_name data) -> storable (c_description data) ->
  int4 (serial db) ->
  exists n d s,
    c_name data = Some n /\ c_description data = Some d
    /\ ((s = "active" /\ (c_status data = None \/ c_status data = Some ""))
        \/ (c_status data = Some s /\ (s = "active" \/ s = "inactive")))
    /\ ResourceService.create data db
       = (Return (mkResource (serial db) n d s (clock db) (clock db)),
          mkDb (table db ++ [mkRow (serial db) n d s (clock db) (clock db)])
               (serial db + 1) (clock db) (log db ++ [StmtInsert])).
Proof.
  intros Hv _ _ _. assert (Hc := Hv). rewrite validateCreateData_chain in Hc.
  unfold create_rules_given, first_violated, name_presence, name_length,
    description_presence, description_length, status_enum_given in Hc.
  destruct data as [n d st]; cbn [c_name c_description c_status] in *.
  destruct n as [n |]; [| discriminate Hc].
  destruct (all_white n); [discriminate Hc |].
  destruct (Nat.ltb_spec 255 (String.length n)) as [| Hn]; [discriminate Hc |].
  destruct d as [d |]; [| discriminate Hc].
  destruct (all_white d); [discriminate Hc |].
  destruct (Nat.ltb_spec 1000 (String.length d)); [discriminate Hc |].
  assert (Hs : exists s,
             ((s = "active" /\ (st = None \/ st = Some ""))
              \/ (st = Some s /\ (s = "active" \/ s = "inactive")))
             /\ Js.or_str st "active" = s
             /\ Sql.store_status s = Return s).
  { destruct st as [x |].
    - destruct (String.eqb_spec x "") as [-> | Hx].
      + exists "active". repeat split. left. split; [reflexivity | right; reflexivity].
      + destruct (String.eqb_spec x "active") as [-> | Ha].
        * exists "active". repeat split. right. split; [reflexivity | left; reflexivity].
        * destruct (String.eqb_spec x "inactive") as [-> | Hi].
          -- exists "inactive". repeat split.
             right. split; [reflexivity | right; reflexivity].
          -- simpl in Hc. discriminate Hc.
    - exists "active". repeat split. left. split; [reflexivity | left; reflexivity]. }
  destruct Hs as (s & Hcase & Hor & Hst).
  exists n, d, s. split; [reflexivity |]. split; [reflexivity |].
  split; [exact Hcase |].
  unfold ResourceService.create, bind, lift. rewrite Hv.
  unfold ResourceModel.create, Sql.insert, bind, lift, sent, next_serial, get,
    set_table, ret.
  cbn [c_name c_description c_status]. rewrite Hor, Hst.
  rewrite (store_name_fits n Hn). reflexivity.
Qed.

(** An inactive resource created in the example store. *)
Lemma valid_create_is_stored_witness :
  exists n d s,
    Some "Second" = Some n /\ Some "Another one" = Some d
    /\ ((s = "active" /\ (Some "inactive" = None \/ Some "inactive" = Some ""))
        \/ (Some "inactive" = Some s /\ (s = "active" \/ s = "inactive")))
    /\ ResourceService.create
         (mkCreate (Some "Second") (Some "Another one") (Some "inactive"))
         example_store
       = (Return (mkResource 2 n d s 2000 2000),
          mkDb (table example_store ++ [mkRow 2 n d s 2000 2000])
               3 2000 [StmtInsert]).
Proof.
  apply (valid_create_is_stored
           (mkCreate (Some "Second") (Some "Another one") (Some "inactive"))
           example_store).
  - reflexivity.
  - intros x E. injection E as <-. reflexivity.
  - intros x E. injection E as <-. reflexivity.
  - unfold int4. simpl. lia.
Defined.

Lemma filter_present (rid : Z) (t : list Row) (r : Row) :
  In r t -> row_id r = rid ->
  (Z.of_nat (List.length (filter (Sql.has_id rid) t)) >? 0)%Z = true.
Proof.
  intros Hin Hr.
  assert (H : In r (filter (Sql.has_id rid) t)).
  { apply filter_In. split; [exact Hin |]. unfold Sql.has_id.
    apply Z.eqb_eq. exact Hr. }
  destruct (filter (Sql.has_id rid) t); [destruct H |]. reflexivity.
Qed.

(** X12. When a row of the id exists, [delete] of the service returns,
    the rows of that id are gone and every other row is kept in place, and
    [findById] of the id then throws the not-found error. *)
Theorem delete_removes (rid : Z) (db : Db) (r : Row) :
  In r (table db) -> row_id r = rid ->
  exists db',
    ResourceService.delete rid db = (Return tt, db')
    /\ table db' = filter (fun x => negb (Sql.has_id rid x)) (table db)
    /\ (forall x, In x (table db') <-> In x (table db) /\ row_id x <> rid)
    /\ fst (ResourceService.findById rid db')
       = Throw (NotFoundError (ResourceService.not_found_message rid)).
Proof.
  intros Hin Hr. eexists.
  unfold ResourceService.delete, ResourceModel.delete, Sql.delete, bind, sent,
    get, set_table, ret.
  cbn [table serial clock log].
  rewrite (filter_present rid (table db) r Hin Hr). cbn [negb].
  split; [reflexivity |]. cbn [table]. split; [reflexivity |].
  assert (Hiff : forall x,
             In x (filter (fun x => negb (Sql.has_id rid x)) (table db))
             <-> In x (table db) /\ row_id x <> rid).
  { intros x. rewrite filter_In. unfold Sql.has_id.
    rewrite negb_true_iff, Z.eqb_neq. reflexivity. }
  split; [exact Hiff |].
  unfold ResourceService.findById, bind.
  rewrite model_findById_absent; [reflexivity |].
  cbn [table]. intros x Hx. apply Hiff in Hx. apply Hx.
Qed.

(** The one resource of the example store, deleted. *)
Lemma delete_removes_witness :
  exists db',
    ResourceService.delete 1 example_store = (Return tt, db')
    /\ table db' = []
    /\ (forall x, In x (table db') <-> In x (table example_store) /\ row_id x <> 1)
    /\ fst (ResourceService.findById 1 db')
       = Throw (NotFoundError "Resource with id 1 not found").
Proof.
  apply (delete_removes 1 example_store
           (mkRow 1 "Test Resource" "Test Description" "active" 1000 1000)).
  - left. reflexivity.
  - reflexivity.
Defined.

(** X13. In a store that keeps its invariants, deleting the resource that
    [create] just returned gives back the table as it was before the
    create; the sequence of ids does not go back. *)
Theorem create_then_delete (data : CreateResourceDto) (db db1 : Db)
        (r : Resource) :
  wf db ->
  ResourceService.create data db = (Return r, db1) ->
  exists db2,
    ResourceService.delete (id r) db1 = (Return tt, db2)
    /\ table db2 = table db
    /\ serial db2 = serial db + 1.
Proof.
  intros (_ & Hlt & _) H.
  unfold ResourceService.create, bind, lift in H.
  destruct (ResourceService.validateCreateData data); [| discriminate].
  destruct (model_create_inv _ _ _ _ H)
    as (n & d & n' & s' & _ & _ & _ & _ & -> & ->).
  set (row := mkRow (serial db) n' d s' (clock db) (clock db)).
  destruct (filter_fresh (serial db) (table db) row Hlt eq_refl) as [Hf Hk].
  eexists.
  unfold ResourceService.delete, ResourceModel.delete, Sql.delete, bind, sent,
    get, set_table, ret.
  cbn [table serial clock log id]. fold row. rewrite Hf, Hk.
  cbn. split; [reflexivity |]. split; reflexivity.
Qed.

(** A resource created in the example store and deleted again. *)
Lemma create_then_delete_witness :
  exists db2,
    ResourceService.delete 2
      (snd (ResourceService.create
              (mkCreate (Some "Second") (Some "Another one") None)
              example_store))
    = (Return tt, db2)
    /\ table db2 = table example_store
    /\ serial db2 = 3.
Proof.
  apply (create_then_delete
           (mkCreate (Some "Second") (Some "Another one") None)
           example_store _
           (mkResource 2 "Second" "Another one" "active" 2000 2000)
           example_store_wf).
  reflexivity.
Defined.

(** X14. What [update] of the service returns is what [findById] of the
    id returns next, whether fields were supplied or not. *)
Theorem update_then_findById (rid : Z) (data : UpdateResourceDto)
        (db db' : Db) (r : Resource) :
  ResourceService.update rid data db = (Return r, db') ->
  ResourceService.findById rid db'
  = (Return r, sent_to db' [StmtSelectById]).
Proof.
  unfold ResourceService.update, bind, lift.
  destruct (ResourceService.validateUpdateData data); [| discriminate].
  unfold ResourceModel.update, bind.
  unfold ResourceModel.findById at 1.
  unfold Sql.select_by_id, bind, sent, get, ret. cbn [table].
  destruct (filter (Sql.has_id rid) (table db)) as [| r0 rest] eqn:Ef;
    [discriminate |].
  destruct (List.length _ =? 0)%nat.
  - intros [= <- <-].
    unfold ResourceService.findById, ResourceModel.findById, Sql.select_by_id,
      bind, sent, get, ret.
    cbn [table]. rewrite Ef. reflexivity.
  - unfold Sql.update, bind, sent, get, lift, set_table, ret.
    cbn [table serial clock log].
    destruct (Sql.update_rows _ rid (clock db) (table db)) as [t' |];
      [| discriminate].
    destruct (filter (Sql.has_id rid) t') as [| r1 rest1] eqn:Ef';
      [discriminate |].
    intros [= <- <-].
    unfold ResourceService.findById, ResourceModel.findById, Sql.select_by_id,
      bind, sent, get, ret.
    cbn [table]. rewrite Ef'. reflexivity.
Qed.

(** Resource 1 set to inactive and read back. *)
Lemma update_then_findById_witness :
  ResourceService.findById 1
    (snd (ResourceService.update 1 (mkUpdate None None (Some "inactive"))
            example_store))
  = (Return (mkResource 1 "Test Resource" "Test Description" "inactive"
                        1000 2000),
     sent_to (snd (ResourceService.update 1
                     (mkUpdate None None (Some "inactive")) example_store))
             [StmtSelectById]).
Proof.
  apply (update_then_findById 1 (mkUpdate None None (Some "inactive"))
           example_store).
  reflexivity.
Defined.

(** X15. An update that passes validation, of a row that exists, with a
    name and a description that are text the store takes (no code unit 0),
    succeeds: with no field it returns the row as it is and writes nothing;
    otherwise it returns the row with the supplied fields and the time of
    the update, and stores it in place of the old one. *)
Theorem valid_update_is_stored (rid : Z) (data : UpdateResourceDto)
        (db : Db) (r0 : Row) :
  ResourceService.validateUpdateData data = Return tt ->
  storable (u_name data) -> storable (u_description data) ->
  find (Sql.has_id rid) (table db) = Some r0 ->
  (data = no_fields
   /\ ResourceService.update rid data db
      = (Return (ResourceModel.mapRowToResource r0),
         sent_to db [StmtSelectById]))
  \/ (supplied data
      /\ ResourceService.update rid data db
         = (Return (ResourceModel.mapRowToResource
                      (with_fields data (clock db) r0)),
            mkDb (map (fun x => if Sql.has_id rid x
                                then with_fields data (clock db) x else x)
                      (table db))
                 (serial db) (clock db)
                 (log db ++ [StmtSelectById; StmtUpdate]))).
Proof.
  intros Hv _ _ Hr. pose proof (validated_update_fits data Hv) as Hfit.
  destruct (find_filter _ _ _ Hr) as [rest Hf].
  unfold ResourceService.update, bind, lift. rewrite Hv.
  unfold ResourceModel.update, bind.
  rewrite (model_findById_present rid db r0 Hr).
  fold (updates_of data).
  destruct data as [[n |] [d |] [s |]];
    try (right; split; [unfold supplied; cbn; intuition discriminate |]);
    try (left; split; [reflexivity |]; reflexivity);
    match goal with
    | |- context [updates_of ?dt] =>
        rewrite (supplied_updates dt)
          by (unfold supplied; cbn; intuition discriminate);
        unfold Sql.update, bind, sent, get, lift, set_table, ret, sent_to;
        cbn [table serial clock log];
        rewrite (update_rows_fits dt rid (clock db) (table db) Hfit);
        rewrite filter_updated, Hf; cbn [map];
        rewrite <- app_assoc; reflexivity
    end.
Qed.

(** The name of resource 1 changed. *)
Lemma valid_update_is_stored_witness :
  (mkUpdate (Some "Renamed") None None = no_fields
   /\ ResourceService.update 1 (mkUpdate (Some "Renamed") None None)
        example_store
      = (Return (mkResource 1 "Test Resource" "Test Description" "active"
                            1000 1000),
         sent_to example_store [StmtSelectById]))
  \/ (supplied (mkUpdate (Some "Renamed") None None)
      /\ ResourceService.update 1 (mkUpdate (Some "Renamed") None None)
           example_store
         = (Return (mkResource 1 "Renamed" "Test Description" "active"
                               1000 2000),
            mkDb [mkRow 1 "Renamed" "Test Description" "active" 1000 2000]
                 2 2000 [StmtSelectById; StmtUpdate])).
Proof.
  apply (valid_update_is_stored 1 (mkUpdate (Some "Renamed") None None)
           example_store
           (mkRow 1 "Test Resource" "Test Description" "active" 1000 1000)).
  - reflexivity.
  - intros x E. injection E as <-. reflexivity.
  - intros x E. discriminate E.
  - reflexivity.
Defined.

End StoreLaws.

(* ===================================================================== *)
(** * Further properties: pages *)
(* ===================================================================== *)

Section PageLaws.

Import Store Spec Laws.
Local Open Scope string_scope.

Lemma firstn_skipn_tile {A} (l : nat) (rows : list A) (m : nat) :
  List.concat (map (fun k => firstn l (skipn (k * l) rows)) (seq 0 m))
  = firstn (m * l) rows.
Proof.
  induction m as [| m IH]; [reflexivity |].
  rewrite seq_S, map_app, concat_app, IH. simpl.
  rewrite app_nil_r.
  replace (l + m * l)%nat with (m * l + l)%nat by lia.
  rewrite <- (firstn_skipn (m * l) (firstn (m * l + l) rows)).
  rewrite firstn_firstn. replace (Nat.min (m * l) (m * l + l)) with (m * l)%nat by lia.
  f_equal. rewrite skipn_firstn_comm.
  replace (m * l + l - m * l)%nat with l by lia. reflexivity.
Qed.

Lemma slice_nat {A} (l k : Z) (rows : list A) :
  1 <= l -> 1 <= k ->
  slice l k rows
  = firstn (Z.to_nat l) (skipn (Z.to_nat (k - 1) * Z.to_nat l) rows).
Proof.
  intros Hl Hk. unfold slice. rewrite Z2Nat.inj_mul by lia. reflexivity.
Qed.

(** The pages that [findAll] returns are the slices of the selected rows. *)
Lemma findAll_page (f : ResourceFilters) (k : Z) (db : Db) :
  1 <= Js.or_num (f_limit f) 10 -> 1 <= k ->
  ResourceModel.findAll (with_page f k) db
  = (Return
       (mkPaginated
          (map ResourceModel.mapRowToResource
             (slice (Js.or_num (f_limit f) 10) k (selected f db)))
          (let total := Z.of_nat (List.length (selected f db)) in
           mkPagination k (Js.or_num (f_limit f) 10) total
             (Js.ceil_div total (Js.or_num (f_limit f) 10)))),
     sent_to db [StmtCount; StmtSelectPage]).
Proof.
  intros Hl Hk.
  assert (Hk' : Js.or_num (Some k) 1 = k).
  { simpl. destruct (Z.eqb_spec k 0); [lia | reflexivity]. }
  rewrite findAll_runs; cbn [f_page f_limit with_page]; rewrite ?Hk';
    [| lia | nia].
  unfold page_of, selected, slice. cbn [f_page f_limit with_page].
  rewrite Hk'.
  replace (ResourceModel.build_where (with_page f k))
    with (ResourceModel.build_where f) by reflexivity.
  rewrite (Permutation_length (order_by_perm _)). reflexivity.
Qed.

Lemma concat_map_map {A B C} (g : B -> C) (h : A -> list B) (l : list A) :
  List.concat (map (fun x => map g (h x)) l) = map g (List.concat (map h l)).
Proof.
  induction l as [| x l IH]; [reflexivity |].
  simpl. rewrite IH, map_app. reflexivity.
Qed.

Lemma or_num_nonneg (v : option Z) (d : Z) :
  1 <= d -> (forall x, v = Some x -> 0 <= x) -> 1 <= Js.or_num v d.
Proof.
  intros Hd H. destruct v as [x |]; simpl; [| exact Hd].
  specialize (H x eq_refl). destruct (Z.eqb_spec x 0); lia.
Qed.

Lemma page_data_slice (f : ResourceFilters) (k : Z) (db : Db) :
  1 <= Js.or_num (f_limit f) 10 -> 1 <= k ->
  page_data f k db
  = map ResourceModel.mapRowToResource
      (slice (Js.or_num (f_limit f) 10) k (selected f db)).
Proof.
  intros Hl Hk. unfold page_data. rewrite (findAll_page f k db Hl Hk).
  reflexivity.
Qed.

(** The pages of [l] rows, from the first to the last, tile the selected
    rows. *)
Lemma pages_tile (f : ResourceFilters) (db : Db) :
  1 <= Js.or_num (f_limit f) 10 ->
  let l := Js.or_num (f_limit f) 10 in
  let n := Z.of_nat (List.length (selected f db)) in
  List.concat
    (map (fun i => page_data f (Z.of_nat i + 1) db)
         (seq 0 (Z.to_nat (Js.ceil_div n l))))
  = map ResourceModel.mapRowToResource (selected f db).
Proof.
  intros Hl l n.
  rewrite (map_ext_in _
             (fun i => map ResourceModel.mapRowToResource
                         (firstn (Z.to_nat l)
                            (skipn (i * Z.to_nat l) (selected f db))))).
  - rewrite concat_map_map, firstn_skipn_tile. f_equal.
    apply firstn_all2.
    pose proof (ceil_div_bounds n l ltac:(lia)) as Hb.
    assert (0 <= Js.ceil_div n l) by nia.
    apply Nat2Z.inj_le. rewrite Nat2Z.inj_mul, !Z2Nat.id by lia.
    fold n. lia.
  - intros i _. rewrite (page_data_slice f _ db Hl) by lia.
    rewrite slice_nat by lia.
    replace (Z.of_nat i + 1 - 1) with (Z.of_nat i) by lia.
    rewrite Nat2Z.id. reflexivity.
Qed.

(** X16. When no two of the rows that match the filters were created at
    the same time, so that their order by [createdAt] is one order, the
    pages 1 to [totalPages] that [findAll] returns, one after the other,
    are the matching rows, each once and most recent first; and every page
    reports the same [total] and [totalPages].  The limit is not negative,
    the search term is text that the store takes (no code unit 0), and the
    limit and the offsets are at most [Number.MAX_SAFE_INTEGER]. *)
Theorem pages_cover_selected (f : ResourceFilters) (db : Db) :
  (forall x, f_limit f = Some x -> 0 <= x) ->
  storable (f_search f) ->
  let rows :=
    filter (Sql.eval_where (ResourceModel.build_where f)) (table db) in
  let l := Js.or_num (f_limit f) 10 in
  let n := Z.of_nat (List.length rows) in
  NoDup (map row_createdAt rows) ->
  n + l <= Js.MAX_SAFE_INTEGER ->
  (forall k,
      1 <= k <= Js.ceil_div n l ->
      exists p,
        ResourceModel.findAll (with_page f k) db
        = (Return p, sent_to db [StmtCount; StmtSelectPage])
        /\ total (pagination p) = n
        /\ totalPages (pagination p) = Js.ceil_div n l)
  /\ exists sorted,
      Permutation sorted rows
      /\ StronglySorted newest_first sorted
      /\ List.concat
           (map (fun i => page_data f (Z.of_nat i + 1) db)
                (seq 0 (Z.to_nat (Js.ceil_div n l))))
         = map ResourceModel.mapRowToResource sorted.
Proof.
  intros Hlim _ rows l n _ _.
  assert (Hl : 1 <= l) by (apply or_num_nonneg; [lia | exact Hlim]).
  assert (Hn : Z.of_nat (List.length (selected f db)) = n).
  { unfold selected. rewrite (Permutation_length (order_by_perm _)).
    reflexivity. }
  split.
  - intros k Hk. eexists.
    split; [apply (findAll_page f k db Hl ltac:(lia)) |].
    cbn [pagination total totalPages]. rewrite Hn. split; reflexivity.
  - exists (selected f db).
    split; [apply order_by_perm |]. split; [apply order_by_sorted |].
    pose proof (pages_tile f db Hl) as Ht. cbv zeta in Ht.
    rewrite Hn in Ht. exact Ht.
Qed.

(** The one page of the example store. *)
Lemma pages_cover_selected_witness :
  let f := mkFilters None None None None in
  let rows :=
    filter (Sql.eval_where (ResourceModel.build_where f))
      (table example_store) in
  let l := Js.or_num (f_limit f) 10 in
  let n := Z.of_nat (List.length rows) in
  (forall k,
      1 <= k <= Js.ceil_div n l ->
      exists p,
        ResourceModel.findAll (with_page f k) example_store
        = (Return p, sent_to example_store [StmtCount; StmtSelectPage])
        /\ total (pagination p) = n
        /\ totalPages (pagination p) = Js.ceil_div n l)
  /\ exists sorted,
      Permutation sorted rows
      /\ StronglySorted newest_first sorted
      /\ List.concat
           (map (fun i => page_data f (Z.of_nat i + 1) example_store)
                (seq 0 (Z.to_nat (Js.ceil_div n l))))
         = map ResourceModel.mapRowToResource sorted.
Proof.
  apply (pages_cover_selected (mkFilters None None None None) example_store).
  - intros x E. discriminate E.
  - intros x E. discriminate E.
  - repeat constructor. intros [].
  - apply Z.leb_le. reflexivity.
Defined.

(** X17. A page after the last one is empty, and still reports the total
    and the number of pages.  The limit is not negative, the search term is
    text that the store takes (no code unit 0), and the limit and the
    offset of the page are at most [Number.MAX_SAFE_INTEGER]. *)
Theorem page_past_the_end (f : ResourceFilters) (k : Z) (db : Db) :
  (forall x, f_limit f = Some x -> 0 <= x) ->
  storable (f_search f) ->
  let l := Js.or_num (f_limit f) 10 in
  let n := Z.of_nat (List.length (selected f db)) in
  l <= Js.MAX_SAFE_INTEGER -> (k - 1) * l <= Js.MAX_SAFE_INTEGER ->
  Js.ceil_div n l < k ->
  ResourceModel.findAll (with_page f k) db
  = (Return (mkPaginated [] (mkPagination k l n (Js.ceil_div n l))),
     sent_to db [StmtCount; StmtSelectPage]).
Proof.
  intros Hlim _ l n _ _ Hk.
  assert (Hl : 1 <= l) by (apply or_num_nonneg; [lia | exact Hlim]).
  pose proof (ceil_div_bounds n l ltac:(lia)) as Hb.
  assert (H0 : 0 <= Js.ceil_div n l) by nia.
  rewrite (findAll_page f k db Hl ltac:(lia)).
  unfold slice. rewrite skipn_all2; [rewrite firstn_nil; reflexivity |].
  apply Nat2Z.inj_le. rewrite Z2Nat.id by nia. fold n. nia.
Qed.

(** Page 2 of the example store, which has one resource. *)
Lemma page_past_the_end_witness :
  ResourceModel.findAll (with_page (mkFilters None None None None) 2)
    example_store
  = (Return (mkPaginated [] (mkPagination 2 10 1 1)),
     sent_to example_store [StmtCount; StmtSelectPage]).
Proof.
  apply (page_past_the_end (mkFilters None None None None) 2 example_store).
  - intros x E. discriminate E.
  - intros x E. discriminate E.
  - apply Z.leb_le. reflexivity.
  - apply Z.leb_le. reflexivity.
  - reflexivity.
Defined.

Lemma In_firstn {A} (n : nat) (l : list A) (x : A) :
  In x (firstn n l) -> In x l.
Proof.
  intros H. rewrite <- (firstn_skipn n l). apply in_or_app. left. exact H.
Qed.

Lemma In_skipn {A} (n : nat) (l : list A) (x : A) :
  In x (skipn n l) -> In x l.
Proof.
  intros H. rewrite <- (firstn_skipn n l). apply in_or_app. right. exact H.
Qed.

Lemma StronglySorted_skipn {A} (R : A -> A -> Prop) (n : nat) (l : list A) :
  StronglySorted R l -> StronglySorted R (skipn n l).
Proof.
  revert l. induction n as [| n IH]; intros l H; [exact H |].
  destruct l as [| x l]; [exact H |]. simpl. apply IH.
  inversion H; assumption.
Qed.

Lemma StronglySorted_firstn {A} (R : A -> A -> Prop) (n : nat) (l : list A) :
  StronglySorted R l -> StronglySorted R (firstn n l).
Proof.
  revert l. induction n as [| n IH]; intros l H; [constructor |].
  destruct l as [| x l]; [constructor |]. simpl.
  inversion H as [| ? ? Hl Hx]; subst. constructor; [apply IH; exact Hl |].
  rewrite Forall_forall in *. intros y Hy. apply Hx.
  apply (In_firstn n l). exact Hy.
Qed.

Lemma in_slice_selected (f : ResourceFilters) (db : Db) (n m : nat)
      (r : Row) :
  In r (firstn n (skipn m (selected f db))) ->
  In r (table db)
  /\ Sql.eval_where (ResourceModel.build_where f) r = true.
Proof.
  intros H. apply In_firstn, In_skipn in H.
  assert (H' := H).
  unfold selected in H'.
  apply (Permutation_in _ (order_by_perm _)) in H'.
  apply filter_In in H'. exact H'.
Qed.

(** What a [findAll] that returns has read. *)
Lemma findAll_inv (f : ResourceFilters) (db db' : Db)
      (p : PaginatedResponse) :
  ResourceModel.findAll f db = (Return p, db') ->
  0 <= limit (pagination p)
  /\ limit (pagination p) = Js.or_num (f_limit f) 10
  /\ exists m,
      data p
      = map ResourceModel.mapRowToResource
          (firstn (Z.to_nat (limit (pagination p)))
             (skipn m (selected f db))).
Proof.
  unfold ResourceModel.findAll, Sql.count, Sql.select_page, bind, sent, get,
    ret, throw, selected.
  cbn [table serial clock log].
  destruct (Z.ltb_spec (Js.or_num (f_limit f) 10) 0); [discriminate |].
  destruct (_ <? 0)%Z; [discriminate |].
  intros [= <- _]. cbn [limit pagination data].
  split; [assumption |]. split; [reflexivity |].
  eexists. reflexivity.
Qed.

(** X24. Whatever the filters, a page that [findAll] returns holds at most
    [limit] resources, most recent first, every one of them a row of the
    table, and, when a status is asked for, every one of them with that
    status: also for a search term that is read as a pattern. *)
Theorem findAll_page_is_sound (f : ResourceFilters) (db db' : Db)
        (p : PaginatedResponse) :
  ResourceModel.findAll f db = (Return p, db') ->
  Z.of_nat (List.length (data p)) <= limit (pagination p)
  /\ StronglySorted (fun a b => createdAt b <= createdAt a) (data p)
  /\ (forall r, In r (data p) ->
                exists row, In row (table db)
                            /\ r = ResourceModel.mapRowToResource row)
  /\ (forall st, f_status f = Some st ->
                 Forall (fun r => status r = status_text st) (data p)).
Proof.
  intros H. destruct (findAll_inv f db db' p H) as (Hl & _ & m & ->).
  split; [| split; [| split]].
  - rewrite length_map.
    pose proof (firstn_le_length (Z.to_nat (limit (pagination p)))
                  (skipn m (selected f db))). lia.
  - assert (Hs : StronglySorted newest_first
                   (firstn (Z.to_nat (limit (pagination p)))
                      (skipn m (selected f db)))).
    { apply StronglySorted_firstn, StronglySorted_skipn, order_by_sorted. }
    induction Hs as [| x l _ IH Hx]; [constructor |].
    simpl. constructor; [exact IH |].
    rewrite Forall_forall in *. intros y Hy.
    apply in_map_iff in Hy as (z & <- & Hz). apply (Hx z Hz).
  - intros r Hr. apply in_map_iff in Hr as (row & <- & Hrow).
    exists row. split; [| reflexivity].
    apply (in_slice_selected f db _ _ _ Hrow).
  - intros st Hst. rewrite Forall_forall. intros r Hr.
    apply in_map_iff in Hr as (row & <- & Hrow).
    destruct (in_slice_selected f db _ _ _ Hrow) as [_ Hw].
    unfold ResourceModel.build_where in Hw. rewrite Hst in Hw.
    unfold Sql.eval_where in Hw.
    destruct (Js.truthy (f_search f)); simpl in Hw;
      apply andb_prop in Hw as [Hw _]; apply String.eqb_eq in Hw; exact Hw.
Qed.

(** The active resources of the example store whose name or description
    matches the pattern of the search term "T%". *)
Lemma findAll_page_is_sound_witness :
  let p := mkPaginated
             [mkResource 1 "Test Resource" "Test Description" "active"
                         1000 1000]
             (mkPagination 1 10 1 1) in
  Z.of_nat (List.length (data p)) <= limit (pagination p)
  /\ StronglySorted (fun a b => createdAt b <= createdAt a) (data p)
  /\ (forall r, In r (data p) ->
                exists row, In row (table example_store)
                            /\ r = ResourceModel.mapRowToResource row)
  /\ (forall st, Some active = Some st ->
                 Forall (fun r => status r = status_text st) (data p)).
Proof.
  apply (findAll_page_is_sound
           (mkFilters (Some active) (Some "T%") None None) example_store
           (sent_to example_store [StmtCount; StmtSelectPage])).
  reflexivity.
Defined.

End PageLaws.

(* ===================================================================== *)
(** * Further properties: the handlers *)
(* ===================================================================== *)

Section HandlerLaws.

Import Store Spec Laws.
Local Open Scope string_scope.

Lemma join_includes (sep : string) (arr : list string) (x : string) :
  In x arr -> exists a b, JsArray.join sep arr = a ++ x ++ b.
Proof.
  induction arr as [| y arr IH]; intros Hin; [destruct Hin |].
  destruct Hin as [-> | Hin].
  - destruct arr as [| z arr].
    + exists "", "". simpl. rewrite append_empty_r. reflexivity.
    + exists "", (sep ++ JsArray.join sep (z :: arr)). reflexivity.
  - destruct (IH Hin) as (a & b & E).
    destruct arr as [| z arr]; [destruct Hin |].
    exists (y ++ sep ++ a), b.
    change (JsArray.join sep (y :: z :: arr))
      with (y ++ sep ++ JsArray.join sep (z :: arr)).
    rewrite E, !append_assoc. reflexivity.
Qed.

(** X18. With no error collected, [handleValidationErrors] calls [next];
    otherwise it throws one [ValidationError] (status 400) whose message is
    the messages of the collected errors, in order, joined by a comma and a
    space, so that it contains the message of every one of them. *)
Theorem handleValidationErrors_collects (errors : list Validation.FieldError) :
  (errors = [] -> Validation.handleValidationErrors errors = Return tt)
  /\ (errors <> [] ->
      Validation.handleValidationErrors errors
      = Throw (AppError ValidationErrorClass
                 (JsArray.join ", " (map Validation.msg errors)) 400 true)
      /\ forall e,
          In e errors ->
          Js.includes (JsArray.join ", " (map Validation.msg errors))
            (Validation.msg e) = true).
Proof.
  split; [intros ->; reflexivity |].
  intros Hne. destruct errors as [| e0 errors]; [contradiction |].
  split; [reflexivity |].
  intros e He.
  destruct (join_includes ", " (map Validation.msg (e0 :: errors))
              (Validation.msg e)) as (a & b & E).
  { apply in_map_iff. exists e. split; [reflexivity | exact He]. }
  rewrite E. apply includes_middle.
Qed.

(** Two errors collected by the validators of create. *)
Lemma handleValidationErrors_collects_witness :
  Validation.handleValidationErrors
    [Validation.mkFieldError "Name is required";
     Validation.mkFieldError "Description is required"]
  = Throw (AppError ValidationErrorClass
             "Name is required, Description is required" 400 true)
  /\ forall e,
      In e [Validation.mkFieldError "Name is required";
            Validation.mkFieldError "Description is required"] ->
      Js.includes "Name is required, Description is required"
        (Validation.msg e) = true.
Proof.
  apply (proj2 (handleValidationErrors_collects
                  [Validation.mkFieldError "Name is required";
                   Validation.mkFieldError "Description is required"])).
  discriminate.
Defined.

Lemma parseInt_not_numeric (s : string) :
  not_numeric s -> JsNumber.parseInt s = None.
Proof.
  unfold not_numeric, JsNumber.parseInt.
  destruct s as [| c s]; [reflexivity |].
  intros (Hw & Hm & Hp & Hd). cbn [Js.trimStart]. rewrite Hw.
  destruct (Ascii.eqb_spec c "-") as [-> | _]; [contradiction |].
  destruct (Ascii.eqb_spec c "+") as [-> | _]; [contradiction |].
  assert (E : JsNumber.take_digits (String c s) = "")
    by (simpl; rewrite Hd; reflexivity).
  destruct c as [[] [] [] [] [] [] [] []]; try contradiction;
    rewrite E; reflexivity.
Qed.

(** X19. A path id that does not start as a number does is answered by
    [findById], [update] and [delete] of the controller with status 400 and
    the message "Invalid resource ID": the service is not called and the
    store is returned as it was. *)
Theorem handlers_refuse_non_numeric_id (params_id : string)
        (body : UpdateResourceDto) (db : Db) :
  not_numeric params_id ->
  let refused :=
    (Return (ResourceController.Responded 400
               (ResourceController.FailureBody "Invalid resource ID" 400)),
     db) in
  ResourceController.findById params_id db = refused
  /\ ResourceController.update params_id body db = refused
  /\ ResourceController.delete params_id db = refused.
Proof.
  intros H. pose proof (parseInt_not_numeric params_id H) as E.
  unfold ResourceController.findById, ResourceController.update,
    ResourceController.delete.
  rewrite E. repeat split.
Qed.

(** The path id "abc". *)
Lemma handlers_refuse_non_numeric_id_witness :
  ResourceController.findById "abc" example_store
  = (Return (ResourceController.Responded 400
               (ResourceController.FailureBody "Invalid resource ID" 400)),
     example_store)
  /\ ResourceController.update "abc" no_fields example_store
     = (Return (ResourceController.Responded 400
                  (ResourceController.FailureBody "Invalid resource ID" 400)),
        example_store)
  /\ ResourceController.delete "abc" example_store
     = (Return (ResourceController.Responded 400
                  (ResourceController.FailureBody "Invalid resource ID" 400)),
        example_store).
Proof.
  apply (handlers_refuse_non_numeric_id "abc" no_fields example_store).
  repeat split; discriminate.
Defined.

(** X20. When no row has the id, an id being a value of the [INTEGER]
    type of the [id] column, [findById], [update] with valid data and
    [delete] of the controller, called with the decimal text of the id, pass
    the not-found error to [next], and [errorHandler] answers that error
    with status 404 and the message naming the id. *)
Theorem missing_resource_is_404 (rid : Z) (db : Db) (env : option string) :
  int4 rid ->
  (forall r, In r (table db) -> row_id r <> rid) ->
  exists e,
    ResourceController.findById (Js.num_to_string rid) db
    = (Return (ResourceController.Next e), sent_to db [StmtSelectById])
    /\ (forall body,
           ResourceService.validateUpdateData body = Return tt ->
           ResourceController.update (Js.num_to_string rid) body db
           = (Return (ResourceController.Next e),
              sent_to db [StmtSelectById]))
    /\ ResourceController.delete (Js.num_to_string rid) db
       = (Return (ResourceController.Next e), sent_to db [StmtDelete])
    /\ ErrorHandler.errorHandler env e
       = ErrorHandler.mkResponse 404 false
           (ErrorHandler.mkErrorBody
              (ResourceService.not_found_message rid) 404).
Proof.
  intros _ H. exists (NotFoundError (ResourceService.not_found_message rid)).
  unfold ResourceController.findById, ResourceController.update,
    ResourceController.delete.
  rewrite parseInt_of_text. unfold ResourceController.try_respond.
  split; [| split; [| split]].
  - unfold ResourceService.findById, bind.
    rewrite (model_findById_absent rid db H). reflexivity.
  - intros body Hv. unfold ResourceService.update, bind, lift. rewrite Hv.
    unfold ResourceModel.update, bind.
    rewrite (model_findById_absent rid db H). reflexivity.
  - unfold ResourceService.delete, bind.
    rewrite (model_delete_absent rid db H). reflexivity.
  - reflexivity.
Qed.

(** Resource 7 asked of the example store, in production. *)
Lemma missing_resource_is_404_witness :
  exists e,
    ResourceController.findById "7" example_store
    = (Return (ResourceController.Next e),
       sent_to example_store [StmtSelectById])
    /\ (forall body,
           ResourceService.validateUpdateData body = Return tt ->
           ResourceController.update "7" body example_store
           = (Return (ResourceController.Next e),
              sent_to example_store [StmtSelectById]))
    /\ ResourceController.delete "7" example_store
       = (Return (ResourceController.Next e),
          sent_to example_store [StmtDelete])
    /\ ErrorHandler.errorHandler (Some "production") e
       = ErrorHandler.mkResponse 404 false
           (ErrorHandler.mkErrorBody "Resource with id 7 not found" 404).
Proof.
  apply (missing_resource_is_404 7 example_store (Some "production")).
  - unfold int4. simpl. lia.
  - intros r [<- | []]. discriminate.
Defined.

(** X21. In a store that keeps its invariants, when [create] of the
    service returns a resource, the handlers answer as follows, one after
    the other: create with 201 and the resource; reading its id with 200 and
    the same resource; deleting its id with 200 and
    "Resource deleted successfully", the table being again what it was
    before the create; and reading the id once more passes to [next] an
    error that [errorHandler] answers with 404. *)
Theorem create_read_delete_read (body : CreateResourceDto) (db db1 : Db)
        (r : Resource) (env : option string) :
  wf db ->
  ResourceService.create body db = (Return r, db1) ->
  let path_id := Js.num_to_string (id r) in
  exists db3 e,
    ResourceController.create body db
    = (Return (ResourceController.Responded 201
                 (ResourceController.DataBody r)), db1)
    /\ ResourceController.findById path_id db1
       = (Return (ResourceController.Responded 200
                    (ResourceController.DataBody r)),
          sent_to db1 [StmtSelectById])
    /\ ResourceController.delete path_id (sent_to db1 [StmtSelectById])
       = (Return (ResourceController.Responded 200
                    (ResourceController.MessageBody
                       "Resource deleted successfully")), db3)
    /\ table db3 = table db
    /\ ResourceController.findById path_id db3
       = (Return (ResourceController.Next e), sent_to db3 [StmtSelectById])
    /\ ErrorHandler.res_status (ErrorHandler.errorHandler env e) = 404.
Proof.
  intros (_ & Hlt & _) H path_id. subst path_id.
  assert (Hc : ResourceController.create body db
               = (Return (ResourceController.Responded 201
                            (ResourceController.DataBody r)), db1)).
  { unfold ResourceController.create, ResourceController.try_respond.
    rewrite H. reflexivity. }
  unfold ResourceService.create, bind, lift in H.
  destruct (ResourceService.validateCreateData body); [| discriminate].
  destruct (model_create_inv _ _ _ _ H)
    as (n & d & n' & s' & _ & _ & _ & _ & -> & ->).
  set (row := mkRow (serial db) n' d s' (clock db) (clock db)).
  destruct (filter_fresh (serial db) (table db) row Hlt eq_refl) as [Hf Hk].
  cbn [id] in *.
  eexists. exists (NotFoundError (ResourceService.not_found_message (serial db))).
  split; [exact Hc |].
  unfold ResourceController.findById, ResourceController.delete.
  rewrite parseInt_of_text. unfold ResourceController.try_respond.
  split; [| split; [| split; [| split]]].
  - unfold ResourceService.findById, ResourceModel.findById,
      Sql.select_by_id, bind, sent, get, ret.
    cbn [table]. fold row. rewrite Hf. reflexivity.
  - unfold ResourceService.delete, ResourceModel.delete, Sql.delete, bind,
      sent, get, set_table, ret, sent_to.
    cbn [table serial clock log]. fold row. rewrite Hf, Hk. cbn.
    reflexivity.
  - reflexivity.
  - unfold ResourceService.findById, bind.
    rewrite model_findById_absent; [reflexivity |].
    cbn [table]. intros x Hx. rewrite Forall_forall in Hlt.
    specialize (Hlt x Hx). lia.
  - reflexivity.
Qed.

(** A resource created in the example store, read, deleted and read
    again. *)
Lemma create_read_delete_read_witness :
  exists db3 e,
    ResourceController.create
      (mkCreate (Some "Second") (Some "Another one") None) example_store
    = (Return (ResourceController.Responded 201
                 (ResourceController.DataBody
                    (mkResource 2 "Second" "Another one" "active" 2000 2000))),
       snd (ResourceService.create
              (mkCreate (Some "Second") (Some "Another one") None)
              example_store))
    /\ ResourceController.findById "2"
         (snd (ResourceService.create
                 (mkCreate (Some "Second") (Some "Another one") None)
                 example_store))
       = (Return (ResourceController.Responded 200
                    (ResourceController.DataBody
                       (mkResource 2 "Second" "Another one" "active"
                                   2000 2000))),
          sent_to (snd (ResourceService.create
                          (mkCreate (Some "Second") (Some "Another one") None)
                          example_store)) [StmtSelectById])
    /\ ResourceController.delete "2"
         (sent_to (snd (ResourceService.create
                          (mkCreate (Some "Second") (Some "Another one") None)
                          example_store)) [StmtSelectById])
       = (Return (ResourceController.Responded 200
                    (ResourceController.MessageBody
                       "Resource deleted successfully")), db3)
    /\ table db3 = table example_store
    /\ ResourceController.findById "2" db3
       = (Return (ResourceController.Next e), sent_to db3 [StmtSelectById])
    /\ ErrorHandler.res_status
         (ErrorHandler.errorHandler (Some "production") e) = 404.
Proof.
  apply (create_read_delete_read
           (mkCreate (Some "Second") (Some "Another one") None)
           example_store _
           (mkResource 2 "Second" "Another one" "active" 2000 2000)
           (Some "production") example_store_wf).
  reflexivity.
Defined.

(** X22. When no row has the id, an id being a value of the [INTEGER]
    type of the [id] column, the repository reports absence without
    throwing and without changing the store: [findById] and [update] return
    [null] after the lookup alone (no [UPDATE] is sent, whatever the data),
    and [delete] returns [false]. *)
Theorem repository_reports_absence (rid : Z) (db : Db) :
  int4 rid ->
  (forall r, In r (table db) -> row_id r <> rid) ->
  ResourceModel.findById rid db = (Return None, sent_to db [StmtSelectById])
  /\ (forall data,
         ResourceModel.update rid data db
         = (Return None, sent_to db [StmtSelectById]))
  /\ ResourceModel.delete rid db = (Return false, sent_to db [StmtDelete]).
Proof.
  intros _ H. split; [apply model_findById_absent; exact H |].
  split; [| apply model_delete_absent; exact H].
  intros data. unfold ResourceModel.update, bind.
  rewrite (model_findById_absent rid db H). reflexivity.
Qed.

(** Resource 7 in the example store, which holds resource 1 only. *)
Lemma repository_reports_absence_witness :
  ResourceModel.findById 7 example_store
  = (Return None, sent_to example_store [StmtSelectById])
  /\ (forall data,
         ResourceModel.update 7 data example_store
         = (Return None, sent_to example_store [StmtSelectById]))
  /\ ResourceModel.delete 7 example_store
     = (Return false, sent_to example_store [StmtDelete]).
Proof.
  apply (repository_reports_absence 7 example_store).
  - unfold int4. simpl. lia.
  - intros r [<- | []]. discriminate.
Defined.

Lemma validateCreateData_throws (data : CreateResourceDto) (e : JsError) :
  ResourceService.validateCreateData data = Throw e ->
  exists m, e = AppError ValidationErrorClass m 400 true.
Proof.
  rewrite validateCreateData_chain.
  destruct (first_violated create_rules_given data) as [m |];
    [| discriminate].
  intros [= <-]. exists m. reflexivity.
Qed.

Lemma validateUpdateData_throws (data : UpdateResourceDto) (e : JsError) :
  ResourceService.validateUpdateData data = Throw e ->
  exists m, e = AppError ValidationErrorClass m 400 true.
Proof.
  rewrite validateUpdateData_chain.
  destruct (first_violated_update update_rules data) as [m |];
    [| discriminate].
  intros [= <-]. exists m. reflexivity.
Qed.

(** X23. A body that fails the validation of the service is answered with
    status 400 and the message of the violated rule: [create] and [update]
    of the controller pass the error to [next] with the store as it was, and
    [errorHandler] answers it with 400, in production too. *)
Theorem invalid_body_is_400 (db : Db) (env : option string) :
  (forall body e,
      ResourceService.validateCreateData body = Throw e ->
      ResourceController.create body db
      = (Return (ResourceController.Next e), db)
      /\ ErrorHandler.errorHandler env e
         = ErrorHandler.mkResponse 400 false
             (ErrorHandler.mkErrorBody (error_message e) 400))
  /\ (forall rid body e,
         ResourceService.validateUpdateData body = Throw e ->
         ResourceController.update (Js.num_to_string rid) body db
         = (Return (ResourceController.Next e), db)
         /\ ErrorHandler.errorHandler env e
            = ErrorHandler.mkResponse 400 false
                (ErrorHandler.mkErrorBody (error_message e) 400)).
Proof.
  split.
  - intros body e H. destruct (validateCreateData_throws body e H) as [m ->].
    split; [| reflexivity].
    unfold ResourceController.create, ResourceController.try_respond,
      ResourceService.create, bind, lift.
    rewrite H. reflexivity.
  - intros rid body e H.
    destruct (validateUpdateData_throws body e H) as [m ->].
    split; [| reflexivity].
    unfold ResourceController.update. rewrite parseInt_of_text.
    unfold ResourceController.try_respond, ResourceService.update, bind, lift.
    rewrite H. reflexivity.
Qed.

(** A create without a description, in production. *)
Lemma invalid_body_is_400_witness :
  ResourceController.create (mkCreate (Some "n") None None) example_store
  = (Return (ResourceController.Next
               (ValidationError "Description is required")), example_store)
  /\ ErrorHandler.errorHandler (Some "production")
       (ValidationError "Description is required")
     = ErrorHandler.mkResponse 400 false
         (ErrorHandler.mkErrorBody "Description is required" 400).
Proof.
  apply (proj1 (invalid_body_is_400 example_store (Some "production"))).
  reflexivity.
Defined.

End HandlerLaws.
